(** * Scalar kernels of the Numba backend (pytensor/link/numba/dispatch/scalar.py)
      and the XlogX / XlogY0 scalar operators (theano/tensor/xlogx.py).

    The lowering functions are code generators: they resolve an implementation,
    build the text of a small Python wrapper, compile it and hand it to the JIT.
    They are embedded here as functions in a writer-and-error monad whose log
    records every call to a collaborator, next to a small Python expression
    language that gives the emitted text a structure and a meaning. *)

From Stdlib Require Import Reals Lra Floats ZArith Ascii.
From stdpp Require Import strings pretty gmap list.


(* ===================================================================== *)
(** ** Exceptions, results and the lowering monad                        *)
(* ===================================================================== *)

(** The Python exceptions the modelled code can raise. *)
Inductive exn : Type :=
| ValueError (msg : string)
| AttributeError (obj attr : string)
| TypeError (msg : string)
| NotImplementedError (msg : string).

Inductive result (A : Type) : Type :=
| Ok (a : A)
| Raise (e : exn).
Arguments Ok {A} a.
Arguments Raise {A} e.

(* ===================================================================== *)
(** ** Python string helpers                                             *)
(* ===================================================================== *)

(** [sep.join(parts)]. *)
Fixpoint py_join (sep : string) (parts : list string) : string :=
  match parts with
  | [] => ""
  | [p] => p
  | p :: ps => p +:+ sep +:+ py_join sep ps
  end.

(** [s.split(".")]: the pieces between the dots, never an empty list. *)
Fixpoint split_dot_go (cur : string) (s : string) : list string :=
  match s with
  | "" => [String.rev cur]
  | String c s' =>
      if Ascii.eqb c "."%char
      then String.rev cur :: split_dot_go "" s'
      else split_dot_go (String c cur) s'
  end.

Definition split_dot (s : string) : list string := split_dot_go "" s.

(** [*init, last = parts]: star-unpacking of a non-empty list. *)
Definition unpack_last (parts : list string) : list string * string :=
  (removelast parts, List.last parts "").

(** [s.startswith(p)]. *)
Definition startswith (s p : string) : bool := String.prefix p s.

(* ===================================================================== *)
(** ** Fast-path kernels written directly in Python                      *)
(* ===================================================================== *)

(** The math library used by the float kernels.  Comparison and arithmetic
    are IEEE binary64 ([PrimFloat]); the transcendental functions of
    [numpy] are an interface. *)
Class Libm : Type := {
  np_log : float -> float;
  np_exp : float -> float;
  np_log1p : float -> float;
  np_expm1 : float -> float
}.

(** One entry per call into the math library, in evaluation order. *)
Inductive MathCall : Type :=
| CallLog (x : float)
| CallExp (x : float)
| CallLog1p (x : float)
| CallExpm1 (x : float).

(** A float computation together with the library calls it made. *)
Definition Traced (A : Type) : Type := (A * list MathCall)%type.

#[export] Instance Traced_ret : MRet Traced := fun A a => (a, []).
#[export] Instance Traced_bind : MBind Traced := fun A B k m =>
  let (b, t) := k (fst m) in (b, snd m ++ t).

Section FloatKernels.
Context `{L : Libm}.

Definition log_ (x : float) : Traced float := (np_log x, [CallLog x]).
Definition exp_ (x : float) : Traced float := (np_exp x, [CallExp x]).
Definition log1p_ (x : float) : Traced float := (np_log1p x, [CallLog1p x]).
Definition expm1_ (x : float) : Traced float := (np_expm1 x, [CallExpm1 x]).

(** scalar.py, [logp1mexp]:
<<
  if x < np.log(0.5):
      return np.log1p(-np.exp(x))
  else:
      return np.log(-np.expm1(x))
>> *)
Definition logp1mexp (x : float) : Traced float :=
  c ← log_ 0.5%float;
  if PrimFloat.ltb x c
  then e ← exp_ x; log1p_ (- e)%float
  else e ← expm1_ x; log_ (- e)%float.

(** xlogx.py, [XlogX.st_impl]. *)
Definition XlogX_st_impl (x : float) : Traced float :=
  if PrimFloat.eqb x 0.0%float then mret 0.0%float
  else l ← log_ x; mret (x * l)%float.

(** xlogx.py, [XlogY0.st_impl]:
<<
  if x == 0.0:
      return 0.0
  return x * np.log(y)
>> *)
Definition XlogY0_st_impl (x y : float) : Traced float :=
  if PrimFloat.eqb x 0.0%float then mret 0.0%float
  else l ← log_ y; mret (x * l)%float.
End FloatKernels.

(** Series-based instance of the math library, for closed examples. *)
Fixpoint exp_series (n : nat) (x term acc : float) (k : float) : float :=
  match n with
  | O => acc
  | S n' => let term' := (term * x / k)%float in
            exp_series n' x term' (acc + term')%float (k + 1)%float
  end.

Fixpoint atanh_series (n : nat) (z2 pow acc : float) (k : float) : float :=
  match n with
  | O => acc
  | S n' => let pow' := (pow * z2)%float in
            atanh_series n' z2 pow' (acc + pow' / k)%float (k + 2)%float
  end.

Definition series_exp (x : float) : float := exp_series 40 x 1%float 1%float 1%float.
Definition series_log (y : float) : float :=
  let z := ((y - 1) / (y + 1))%float in
  (2 * (z * atanh_series 40 (z * z)%float 1%float 1%float 3%float))%float.

Definition series_libm : Libm := {|
  np_log := series_log;
  np_exp := series_exp;
  np_log1p := fun x => series_log (1 + x)%float;
  np_expm1 := fun x => (series_exp x - 1)%float
|}.

(** The numeric kernels [switch], [clip], [second] and [viewop] take raw
    operands (a scalar, or a zero-dimensional array holding one) and work
    with any scalar type that has Python's [<] and [>]. *)
Class PyOrd (T : Type) : Type := {
  py_lt : T -> T -> bool;
  py_gt : T -> T -> bool
}.

Section GenericKernels.
Context {Operand T : Type} `{PyOrd T}.
(** [numba_basic.to_scalar]. *)
Variable to_scalar : Operand -> T.

(** scalar.py, [clip]. *)
Definition clip (_x _min _max : Operand) : T :=
  let x := to_scalar _x in
  let _min_scalar := to_scalar _min in
  let _max_scalar := to_scalar _max in
  if py_lt x _min_scalar then _min_scalar
  else if py_gt x _max_scalar then _max_scalar
  else x.

(** scalar.py, [switch], [second], [viewop]. *)
Definition switch {A} (condition : bool) (x y : A) : A :=
  if condition then x else y.
Definition second {A B} (x : A) (y : B) : B := y.
Definition viewop {A} (x : A) : A := x.
End GenericKernels.

#[export] Instance Z_PyOrd : PyOrd Z := {| py_lt := Z.ltb; py_gt := Z.gtb |}.
#[export] Instance float_PyOrd : PyOrd float :=
  {| py_lt := PrimFloat.ltb; py_gt := fun a b => PrimFloat.ltb b a |}.

(** An operand as Numba sees it: a scalar or a zero-dimensional array. *)
Inductive operand (T : Type) : Type :=
| Scalar (v : T)
| Array0d (item : T).
Arguments Scalar {T} v.
Arguments Array0d {T} item.

(** Modelled from the spec: [numba_basic.to_scalar] (pytensor/link/numba/
    dispatch/basic.py is not part of the sources) coerces an operand to the
    common scalar representation: a scalar is returned as it is, a
    zero-dimensional array gives its item. *)
Definition to_scalar {T} (o : operand T) : T :=
  match o with
  | Scalar v => v
  | Array0d v => v
  end.

(* ===================================================================== *)
(** ** Graph data model                                                  *)
(* ===================================================================== *)

(** The element dtypes of scalar Variables. *)
Inductive dtype : Type :=
| bool_ | int8 | int16 | int32 | int64
| uint8 | uint16 | uint32 | uint64
| float16 | float32 | float64
| complex64 | complex128.

#[export] Instance dtype_eq_dec : EqDecision dtype.
Proof. solve_decision. Defined.

(** [np.dtype(x)] for an already resolved dtype name, and [np.dtype(None)],
    which is numpy's default [float64]. *)
Definition np_dtype (d : dtype) : dtype := d.
Definition np_dtype_opt (d : option dtype) : dtype :=
  match d with Some d => np_dtype d | None => float64 end.

Record ScalarVariable : Type := {
  var_id : nat;          (* object identity *)
  var_name : string;
  var_dtype : dtype      (* [v.type.dtype] *)
}.

Record Apply : Type := {
  inputs : list ScalarVariable;
  outputs : list ScalarVariable
}.

Record FunctionGraph : Type := {
  fg_inputs : list ScalarVariable;
  fg_outputs : list ScalarVariable;
  fg_apply_nodes : list Apply
}.

(** What [create_numba_signature] is applied to. *)
Inductive NodeOrFgraph : Type :=
| OfNode (node : Apply)
| OfFgraph (fg : FunctionGraph).

(** A scalar operator; [nfunc_spec] is the optional attribute
    [(path, nin, nout)], [None] when [hasattr(op, "nfunc_spec")] is false. *)
Record ScalarOp : Type := {
  nfunc_spec : option (string * nat * nat)
}.

Record Composite : Type := {
  fgraph : FunctionGraph
}.

(** Values travelling in [**kwargs]. *)
Inductive KwVal : Type :=
| KwStorageMap (cells : list nat)
| KwBool (b : bool)
| KwStr (s : string).

(* ===================================================================== *)
(** ** The Python fragment of the emitted wrappers                       *)
(* ===================================================================== *)

#[local] Set Warnings "-register-all".
Inductive expr : Type :=
| Name (id : string)
| NpIntc (n : Z)                               (* [np.intc(n)] *)
| Call (func : string) (args : list expr)
| BinOp (left : expr) (op : string) (right : expr).

(** [def name(args): return body]. *)
Record FunctionDef : Type := {
  def_name : string;
  def_args : list string;
  def_return : expr
}.

Definition NL : string := String (ascii_of_nat 10) "".

(** Concrete syntax. *)
Fixpoint unparse (e : expr) : string :=
  match e with
  | Name id => id
  | NpIntc n => "np.intc(" +:+ pretty n +:+ ")"
  | Call f args => f +:+ "(" +:+ py_join ", " (List.map unparse args) +:+ ")"
  | BinOp l op r => unparse l +:+ op +:+ unparse r
  end.

(** The text of a definition as the f-strings lay it out; [tail] is the
    indentation that closes the triple-quoted string. *)
Definition unparse_def (tail : string) (d : FunctionDef) : string :=
  NL +:+ "def " +:+ def_name d +:+ "(" +:+ py_join ", " (def_args d) +:+ "):" +:+ NL
     +:+ "    return " +:+ unparse (def_return d) +:+ NL +:+ tail.

Definition tail12 : string := "            ".
Definition tail4 : string := "    ".

(** Number of calls of [f] in an expression. *)
Fixpoint count_calls (f : string) (e : expr) : nat :=
  match e with
  | Name _ | NpIntc _ => 0
  | Call g args =>
      (if String.eqb f g then 1 else 0) + list_sum (List.map (count_calls f) args)
  | BinOp l _ r => count_calls f l + count_calls f r
  end.

(** What a global name of a wrapper's environment is bound to. *)
Inductive GlobalVal (C : Type) : Type :=
| GImpl (c : C)                   (* a callable implementation *)
| GDirectCast                     (* [numba_basic.direct_cast] *)
| GDtype (d : dtype)              (* a [np.dtype] object *)
| GModule (name : string).        (* anything else of the module *)
Arguments GImpl {C} c.
Arguments GDirectCast {C}.
Arguments GDtype {C} d.
Arguments GModule {C} name.

(** The function object [compile_function_src] returns. *)
Record PyFunction (C : Type) : Type := {
  fn_src : string;
  fn_name : string;
  fn_globals : gmap string (GlobalVal C)
}.
Arguments fn_src {C} _.
Arguments fn_name {C} _.
Arguments fn_globals {C} _.

(** Run-time meaning of the fragment. *)
Class Runtime (C : Type) : Type := {
  value : Type;
  call_impl : C -> list value -> option value;
  direct_cast : value -> dtype -> value;
  np_intc : Z -> value;
  py_binop : string -> value -> value -> option value
}.

Section Semantics.
Context {C : Type} `{R : Runtime C}.

(** Objects an expression can evaluate to. *)
Inductive obj : Type :=
| OVal (v : value)
| ODtype (d : dtype).

(** One entry per function call, in evaluation order. *)
Definition CallEvent : Type := (string * list obj)%type.

Definition as_values (os : list obj) : option (list value) :=
  mapM (fun o => match o with OVal v => Some v | ODtype _ => None end) os.

(** Name lookup: parameters first, then the function's globals. *)
Definition lookup_name (globals : gmap string (GlobalVal C))
    (locals : list (string * value)) (id : string) : option obj :=
  match list_find (fun kv => kv.1 = id) locals with
  | Some (_, (_, v)) => Some (OVal v)
  | None =>
      match globals !! id with
      | Some (GDtype d) => Some (ODtype d)
      | _ => None
      end
  end.

Definition apply_global (g : GlobalVal C) (args : list obj) : option obj :=
  match g with
  | GImpl c => vs ← as_values args; OVal <$> call_impl c vs
  | GDirectCast =>
      match args with
      | [OVal v; ODtype d] => Some (OVal (direct_cast v d))
      | _ => None
      end
  | _ => None
  end.

Section Eval.
Variable globals : gmap string (GlobalVal C).
Variable locals : list (string * value).

Fixpoint eval (e : expr) : option (obj * list CallEvent) :=
  match e with
  | Name id => o ← lookup_name globals locals id; Some (o, [])
  | NpIntc n =>
      match list_find (fun kv => kv.1 = "np") locals with
      | Some _ => None
      | None => Some (OVal (np_intc n), [("np.intc", [])])
      end
  | Call f args =>
      let fix eval_args (l : list expr) : option (list obj * list CallEvent) :=
        match l with
        | [] => Some ([], [])
        | a :: l' =>
            '(o, t) ← eval a;
            '(os, t') ← eval_args l';
            Some (o :: os, t ++ t')
        end in
      '(os, t) ← eval_args args;
      match list_find (fun kv => kv.1 = f) locals with
      | Some _ => None
      | None =>
          g ← globals !! f;
          o ← apply_global g os;
          Some (o, t ++ [(f, os)])
      end
  | BinOp l op r =>
      '(a, t) ← eval l;
      '(b, t') ← eval r;
      match a, b with
      | OVal x, OVal y => v ← py_binop op x y; Some (OVal v, t ++ t')
      | _, _ => None
      end
  end.

Fixpoint eval_args (l : list expr) : option (list obj * list CallEvent) :=
  match l with
  | [] => Some ([], [])
  | a :: l' =>
      '(o, t) ← eval a;
      '(os, t') ← eval_args l';
      Some (o :: os, t ++ t')
  end.
End Eval.

(** Calling a definition as Python does: bind the parameters positionally,
    evaluate the returned expression.  This is the meaning of the text that
    is handed to the JIT; what the JIT makes of it for a given signature
    (machine integers, fastmath) is not part of the model. *)
Definition call_def (globals : gmap string (GlobalVal C)) (d : FunctionDef)
    (args : list value) : option (value * list CallEvent) :=
  if decide (length (def_args d) = length args) then
    '(o, t) ← eval globals (zip (def_args d) args) (def_return d);
    match o with
    | OVal v => Some (v, t)
    | ODtype _ => None
    end
  else None.
End Semantics.

(* ===================================================================== *)
(** ** Collaborators of the lowering functions                           *)
(* ===================================================================== *)

(** What reading an attribute gives when the attribute is not called: a
    plain [bool], or a bound method ([returns] is what calling it would
    give). *)
Inductive PyAttr : Type :=
| AttrBool (b : bool)
| AttrMethod (returns : bool).

(** Python's truth value, as [not x] and [if x] take it: a bound method is
    true whatever it would return. *)
Definition truth (a : PyAttr) : bool :=
  match a with
  | AttrBool b => b
  | AttrMethod _ => true
  end.

(** Whether the routine behind the attribute takes the dispatch-control
    argument: the boolean itself, or the answer of the method. *)
Definition requires_dispatch (a : PyAttr) : bool :=
  match a with
  | AttrBool b => b
  | AttrMethod returns => returns
  end.

(** The handle [wrap_cython_function] returns.  The handle itself is the
    callable bound in the wrapper's environment.  Line 75 reads
    [has_pyx_skip_dispatch] as an attribute, without calling it; lines 76-77
    call [numpy_arg_dtypes()] and [numpy_output_dtype()], whose results are
    the other two fields. *)
Record Handle (C : Type) : Type := {
  handle_callable : C;
  has_pyx_skip_dispatch : PyAttr;
  numpy_arg_dtypes : list dtype;
  numpy_output_dtype : dtype
}.
Arguments handle_callable {C} _.
Arguments has_pyx_skip_dispatch {C} _.
Arguments numpy_arg_dtypes {C} _.
Arguments numpy_output_dtype {C} _.

(** Everything scalar.py imports and calls but does not define.
    [np_getattr] is [getattr(np, name)], which raises [AttributeError] when
    it answers [None]; [cython_special_getattr] is
    [getattr(scipy.special.cython_special, name, None)];
    [wrap_cython_function] may raise (the source names
    [NotImplementedError]); [unique_name_generator] builds a generator and
    [unique_names] is one call of it, returning the next generator state. *)
Class Externals : Type := {
  Callable : Type;
  CythonFunc : Type;
  Signature : Type;
  NameGen : Type;
  np_getattr : string -> option Callable;
  cython_special_getattr : string -> option CythonFunc;
  wrap_cython_function : CythonFunc -> dtype -> list dtype -> result (Handle Callable);
  generate_fallback_impl : ScalarOp -> Apply -> gmap string KwVal -> Callable;
  get_name_for_object : Callable -> string;
  unique_name_generator : list string -> string -> NameGen;
  unique_names : NameGen -> ScalarVariable -> bool -> string * NameGen;
  create_numba_signature : NodeOrFgraph -> bool -> Signature;
  numba_funcify_FunctionGraph : FunctionGraph -> gmap string KwVal -> Callable;
  module_globals : gmap string (GlobalVal Callable);
  config_numba__fastmath : bool
}.

(** One entry per call to a collaborator, in program order. *)
Inductive Event : Type :=
| EvGenerateFallbackImpl
| EvNumpyGetattr (name : string)
| EvCythonSpecialGetattr (name : string)
| EvWrapCythonFunction (output_dtype : dtype) (input_dtypes : list dtype)
| EvGetNameForObject
| EvUniqueNameGenerator (reserved : list string)
| EvUniqueName (v : ScalarVariable) (name : string)
| EvCompileFunctionSrc (src name : string)
| EvCreateNumbaSignature (force_scalar : bool)
| EvNumbaNjit (cache : option bool)
| EvNumbaFuncify (kwargs : gmap string KwVal).

(** Name generation, source emission and compilation: the work of
    synthesizing a wrapper. *)
Definition is_synthesis (ev : Event) : bool :=
  match ev with
  | EvGetNameForObject | EvUniqueNameGenerator _ | EvUniqueName _ _
  | EvCompileFunctionSrc _ _ | EvCreateNumbaSignature _ | EvNumbaNjit _ => true
  | _ => false
  end.

Definition is_fallback_call (ev : Event) : bool :=
  match ev with EvGenerateFallbackImpl => true | _ => false end.
Definition is_njit_call (ev : Event) : bool :=
  match ev with EvNumbaNjit _ => true | _ => false end.
Definition is_funcify_call (ev : Event) : bool :=
  match ev with EvNumbaFuncify _ => true | _ => false end.

(** How many entries of a log satisfy [p]. *)
Definition count_events (p : Event -> bool) (l : list Event) : nat :=
  length (List.filter p l).

(** The lowering monad: the log of collaborator calls made so far, and a
    value or the exception that stopped the function. *)
Definition M (A : Type) : Type := (list Event * result A)%type.

#[export] Instance M_ret : MRet M := fun A a => ([], Ok a).
#[export] Instance M_bind : MBind M := fun A B k m =>
  match snd m with
  | Ok a => let (l, r) := k a in (fst m ++ l, r)
  | Raise e => (fst m, Raise e)
  end.

Definition raise {A} (e : exn) : M A := ([], Raise e).
Definition tell (ev : Event) : M unit := ([ev], Ok tt).
Definition log_of {A} (m : M A) : list Event := fst m.
Definition outcome {A} (m : M A) : result A := snd m.

(** The arguments of one [numba_basic.numba_njit(...)] call; [None] marks a
    keyword that was not passed. *)
Record NjitOptions (S : Type) : Type := {
  njit_signature : option S;
  njit_fastmath : option bool;
  njit_cache : option bool
}.
Arguments njit_signature {S} _.
Arguments njit_fastmath {S} _.
Arguments njit_cache {S} _.

Section Lowering.
Context `{E : Externals}.

(** What is handed to the JIT. *)
Inductive JitTarget : Type :=
| Source (f : PyFunction Callable)       (* a compiled wrapper text *)
| Lowered (c : Callable).                (* a lowered sub-graph *)

(** What a lowering function returns. *)
Inductive Kernel : Type :=
| Fallback (c : Callable)
| Jitted (opts : NjitOptions Signature) (target : JitTarget).

Definition Env : Type := list (string * GlobalVal Callable).

(** [{**base, **items}]: later bindings win. *)
Definition dict_update (base : gmap string (GlobalVal Callable)) (items : Env)
    : gmap string (GlobalVal Callable) :=
  foldl (fun m kv => <[kv.1 := kv.2]> m) base items.

(** The names successive [unique_names(v, force_unique=True)] calls give. *)
Fixpoint fresh_names (g : NameGen) (vs : list ScalarVariable) : list string :=
  match vs with
  | [] => []
  | v :: vs' => let (n, g') := unique_names g v true in n :: fresh_names g' vs'
  end.

(** Collaborator calls, logged. *)
Definition call_generate_fallback_impl (op : ScalarOp) (node : Apply)
    (kwargs : gmap string KwVal) : M Callable :=
  _ ← tell EvGenerateFallbackImpl; mret (generate_fallback_impl op node kwargs).

Definition call_np_getattr (name : string) : M Callable :=
  _ ← tell (EvNumpyGetattr name);
  match np_getattr name with
  | Some f => mret f
  | None => raise (AttributeError "numpy" name)
  end.

Definition call_cython_special_getattr (name : string) : M (option CythonFunc) :=
  _ ← tell (EvCythonSpecialGetattr name); mret (cython_special_getattr name).

Definition call_wrap_cython_function (f : CythonFunc) (restype : dtype)
    (arg_types : list dtype) : M (Handle Callable) :=
  _ ← tell (EvWrapCythonFunction restype arg_types);
  match wrap_cython_function f restype arg_types with
  | Ok h => mret h
  | Raise e => raise e
  end.

Definition call_get_name_for_object (f : Callable) : M string :=
  _ ← tell EvGetNameForObject; mret (get_name_for_object f).

Definition call_unique_name_generator (reserved : list string) (sep : string)
    : M NameGen :=
  _ ← tell (EvUniqueNameGenerator reserved); mret (unique_name_generator reserved sep).

Definition call_unique_names (g : NameGen) (vs : list ScalarVariable)
    : M (list string) :=
  let names := fresh_names g vs in
  (zip_with EvUniqueName vs names, Ok names).

(** [compile_function_src] and [numba_njit] are taken to accept what they
    are given: the call is logged and the function object, or the kernel, is
    returned.  The real ones raise on a text that is not Python and on a
    function the JIT cannot type for the signature; those failures are not
    part of the model: a property below that speaks of a returned kernel is
    to be read for a text and a signature that they accept. *)
Definition compile_function_src (src name : string)
    (env : gmap string (GlobalVal Callable)) : M (PyFunction Callable) :=
  _ ← tell (EvCompileFunctionSrc src name);
  mret {| fn_src := src; fn_name := name; fn_globals := env |}.

Definition call_create_numba_signature (x : NodeOrFgraph) (force_scalar : bool)
    : M Signature :=
  _ ← tell (EvCreateNumbaSignature force_scalar);
  mret (create_numba_signature x force_scalar).

Definition numba_njit (signature : option Signature) (fastmath cache : option bool)
    (target : JitTarget) : M Kernel :=
  _ ← tell (EvNumbaNjit cache);
  mret (Jitted {| njit_signature := signature; njit_fastmath := fastmath;
                  njit_cache := cache |} target).

(** What lines 44-82 of [numba_funcify_ScalarOp] leave in the variables
    [scalar_func_numba], [has_pyx_skip_dispatch], [input_inner_dtypes]
    and [output_inner_dtype]. *)
Record Resolved : Type := {
  scalar_func_numba : Callable;
  pyx_skip_dispatch : PyAttr;
  input_inner_dtypes : option (list dtype);
  output_inner_dtype : option dtype
}.

(** scalar.py lines 44-82. *)
Definition resolve_implementation (op : ScalarOp) (node : Apply)
    (kwargs : gmap string KwVal) (scalar_func_path : string) : M Resolved :=
  let '(module_path, scalar_func_name) := unpack_last (split_dot scalar_func_path) in
  scalar_func_numba0 ←
    match module_path with
    | [] => f ← call_np_getattr scalar_func_name; mret (Some f)
    | _ => mret None
    end;
  let input_dtypes := List.map (fun input => np_dtype (var_dtype input)) (inputs node) in
  let output_dtypes := List.map (fun output => np_dtype (var_dtype output)) (outputs node) in
  match output_dtypes with
  | [output_dtype] =>
      '(f, flag, ins, out) ←
        (if startswith scalar_func_path "scipy.special" then
           cython_func ← call_cython_special_getattr scalar_func_name;
           match cython_func with
           | Some cf =>
               h ← call_wrap_cython_function cf output_dtype input_dtypes;
               mret (Some (handle_callable h), has_pyx_skip_dispatch h,
                     Some (numpy_arg_dtypes h), Some (numpy_output_dtype h))
           | None => mret (scalar_func_numba0, AttrBool false, None, None)
           end
         else mret (scalar_func_numba0, AttrBool false, None, None));
      f ← match f with
          | Some f => mret f
          | None => call_generate_fallback_impl op node kwargs
          end;
      mret {| scalar_func_numba := f; pyx_skip_dispatch := flag;
              input_inner_dtypes := ins; output_inner_dtype := out |}
  | _ => raise (ValueError "ScalarOps with more than one output are not supported")
  end.

(** The dict comprehension of line 112: [inp_tmp_dtype_{i}] for each
    working precision, in order. *)
Definition input_tmp_dtype_names (dts : list dtype) : list (string * dtype) :=
  imap (fun i i_dtype => ("inp_tmp_dtype_" +:+ pretty i, i_dtype)) dts.

(** The two texts of lines 98-107; [flag] is the truth value of
    [has_pyx_skip_dispatch]. *)
Definition forward_src (scalar_op_fn_name input_names : string) (flag : bool) : string :=
  if negb flag then
    NL +:+ "def " +:+ scalar_op_fn_name +:+ "(" +:+ input_names +:+ "):" +:+ NL
       +:+ "    return scalar_func_numba(" +:+ input_names +:+ ")" +:+ NL +:+ tail12
  else
    NL +:+ "def " +:+ scalar_op_fn_name +:+ "(" +:+ input_names +:+ "):" +:+ NL
       +:+ "    return scalar_func_numba(" +:+ input_names +:+ ", np.intc(1))"
       +:+ NL +:+ tail12.

(** The two texts of lines 132-141. *)
Definition casting_src (scalar_op_fn_name : string) (input_names : list string)
    (converted_call_args : string) (flag : bool) : string :=
  if negb flag then
    NL +:+ "def " +:+ scalar_op_fn_name +:+ "(" +:+ py_join ", " input_names +:+ "):"
       +:+ NL +:+ "    return direct_cast(scalar_func_numba(" +:+ converted_call_args
       +:+ "), output_dtype)" +:+ NL +:+ tail12
  else
    NL +:+ "def " +:+ scalar_op_fn_name +:+ "(" +:+ py_join ", " input_names +:+ "):"
       +:+ NL +:+ "    return direct_cast(scalar_func_numba(" +:+ converted_call_args
       +:+ ", np.intc(1)), output_dtype)" +:+ NL +:+ tail12.

(** scalar.py lines 84-154. *)
Definition synthesize_wrapper (node : Apply) (r : Resolved) : M Kernel :=
  scalar_op_fn_name ← call_get_name_for_object (scalar_func_numba r);
  _ ← call_unique_name_generator [scalar_op_fn_name; "scalar_func_numba"] "_";
  let global_env : Env := [("scalar_func_numba", GImpl (scalar_func_numba r))] in
  '(scalar_op_src, global_env) ←
    match input_inner_dtypes r, output_inner_dtype r with
    | None, None =>
        unique_names ← call_unique_name_generator
                         [scalar_op_fn_name; "scalar_func_numba"] "_";
        names ← call_unique_names unique_names (inputs node);
        let input_names := py_join ", " names in
        mret (forward_src scalar_op_fn_name input_names (truth (pyx_skip_dispatch r)),
              global_env)
    | ins, out =>
        let global_env := global_env ++ [("direct_cast", GDirectCast)] in
        let global_env := global_env ++ [("output_dtype", GDtype (np_dtype_opt out))] in
        match ins with
        | None => raise (TypeError "'NoneType' object is not iterable")
        | Some ins =>
            let tmp := input_tmp_dtype_names ins in
            let global_env := global_env ++ List.map (fun kv => (kv.1, GDtype kv.2)) tmp in
            unique_names ← call_unique_name_generator
                             ([scalar_op_fn_name; "scalar_func_numba"]
                                ++ List.map fst global_env) "_";
            input_names ← call_unique_names unique_names (inputs node);
            let converted_call_args :=
              py_join ", "
                (zip_with (fun i_name i_tmp_dtype_name =>
                             "direct_cast(" +:+ i_name +:+ ", " +:+ i_tmp_dtype_name +:+ ")")
                          input_names (List.map fst tmp)) in
            mret (casting_src scalar_op_fn_name input_names converted_call_args
                    (truth (pyx_skip_dispatch r)),
                  global_env)
        end
    end;
  scalar_op_fn ← compile_function_src scalar_op_src scalar_op_fn_name
                   (dict_update module_globals global_env);
  signature ← call_create_numba_signature (OfNode node) true;
  numba_njit (Some signature) (Some config_numba__fastmath) (Some false)
             (Source scalar_op_fn).

(** scalar.py, [numba_funcify_ScalarOp]. *)
Definition numba_funcify_ScalarOp (op : ScalarOp) (node : Apply)
    (kwargs : gmap string KwVal) : M Kernel :=
  match nfunc_spec op with
  | None => f ← call_generate_fallback_impl op node kwargs; mret (Fallback f)
  | Some spec =>
      r ← resolve_implementation op node kwargs spec.1.1;
      synthesize_wrapper node r
  end.

(** scalar.py, [binary_to_nary_func]. *)
Definition binary_to_nary_func (inputs : list ScalarVariable)
    (binary_op_name binary_op : string) : M (PyFunction Callable) :=
  unique_names ← call_unique_name_generator ["binary_op_name"] "_";
  input_names ← call_unique_names unique_names inputs;
  let input_signature := py_join ", " input_names in
  let output_expr := py_join binary_op input_names in
  let nary_src :=
    NL +:+ "def " +:+ binary_op_name +:+ "(" +:+ input_signature +:+ "):" +:+ NL
       +:+ "    return " +:+ output_expr +:+ NL +:+ tail4 in
  compile_function_src nary_src binary_op_name module_globals.

(** scalar.py, [numba_funcify_Add] and [numba_funcify_Mul]. *)
Definition numba_funcify_Add (node : Apply) : M Kernel :=
  signature ← call_create_numba_signature (OfNode node) true;
  nary_add_fn ← binary_to_nary_func (inputs node) "add" "+";
  numba_njit (Some signature) (Some config_numba__fastmath) None (Source nary_add_fn).

Definition numba_funcify_Mul (node : Apply) : M Kernel :=
  signature ← call_create_numba_signature (OfNode node) true;
  nary_add_fn ← binary_to_nary_func (inputs node) "mul" "*";
  numba_njit (Some signature) (Some config_numba__fastmath) None (Source nary_add_fn).

(** [numba_funcify(op.fgraph, squeeze_output=True, **kwargs)]: a keyword
    given twice is a [TypeError] of the call itself. *)
Definition call_numba_funcify (fg : FunctionGraph) (squeeze_output : bool)
    (kwargs : gmap string KwVal) : M Callable :=
  match kwargs !! "squeeze_output" with
  | Some _ =>
      raise (TypeError "got multiple values for keyword argument 'squeeze_output'")
  | None =>
      let kw := <["squeeze_output" := KwBool squeeze_output]> kwargs in
      _ ← tell (EvNumbaFuncify kw);
      mret (numba_funcify_FunctionGraph fg kw)
  end.

(** scalar.py, [numba_funcify_Composite]. *)
Definition numba_funcify_Composite (op : Composite) (node : Apply)
    (kwargs : gmap string KwVal) : M Kernel :=
  signature ← call_create_numba_signature (OfFgraph (fgraph op)) true;
  let kwargs := delete "storage_map" kwargs in
  inner ← call_numba_funcify (fgraph op) true kwargs;
  numba_njit (Some signature) (Some config_numba__fastmath) None (Lowered inner).
End Lowering.

(* ===================================================================== *)
(** ** A concrete environment                                            *)
(* ===================================================================== *)

(** Modelled from the spec: the Unique Name Generator of
    pytensor/link/utils.py (not part of the sources).  It is constructed from
    reserved names and a separator; a candidate whose natural name is unused
    is given that name, otherwise the separator and an increasing integer
    are appended until the name is unused; a cached name is returned only
    when [force_unique] is not requested. *)
Record NameScope : Type := {
  ns_used : list string;
  ns_sep : string;
  ns_assigned : list (nat * string)
}.

Definition spec_unique_name_generator (reserved : list string) (sep : string)
    : NameScope :=
  {| ns_used := reserved; ns_sep := sep; ns_assigned := [] |}.

Definition first_unused (used : list string) (base sep : string) : string :=
  if decide (base ∈ used) then
    match list_find (fun k => base +:+ sep +:+ pretty k ∉ used)
                    (seq 1 (S (length used))) with
    | Some (_, k) => base +:+ sep +:+ pretty k
    | None => base
    end
  else base.

Definition spec_unique_names (st : NameScope) (v : ScalarVariable)
    (force_unique : bool) : string * NameScope :=
  let cached :=
    if force_unique then None
    else snd <$> list_find (fun kv => kv.1 = var_id v) (ns_assigned st) in
  match cached with
  | Some (_, n) => (n, st)
  | None =>
      let n := first_unused (ns_used st) (var_name v) (ns_sep st) in
      (n, {| ns_used := n :: ns_used st; ns_sep := ns_sep st;
             ns_assigned := (var_id v, n) :: ns_assigned st |})
  end.

(** Modelled from the spec: [create_numba_signature] (basic.py, not part of
    the sources) derives the call signature from the declared dtypes of the
    inputs and outputs of the node or graph it is given. *)
Definition spec_signature (x : NodeOrFgraph) (force_scalar : bool)
    : list dtype * list dtype * bool :=
  match x with
  | OfNode n => (var_dtype <$> inputs n, var_dtype <$> outputs n, force_scalar)
  | OfFgraph g => (var_dtype <$> fg_inputs g, var_dtype <$> fg_outputs g, force_scalar)
  end.

Definition is_float_dtype (d : dtype) : bool :=
  match d with float16 | float32 | float64 => true | _ => false end.

(** The handles of the concrete environment: a routine computes in double
    precision; [has_pyx_skip_dispatch] is a method of the handle, and a
    routine that takes the dispatch-control argument counts it, as a C
    [int], among its argument dtypes. *)
Definition demo_handle (f : string) (dispatch : bool) (arg_types : list dtype)
    : Handle string :=
  {| handle_callable := f;
     has_pyx_skip_dispatch := AttrMethod dispatch;
     numpy_arg_dtypes :=
       List.map (fun _ => float64) arg_types ++ (if dispatch then [int32] else []);
     numpy_output_dtype := float64 |}.

(** A small world to run the lowering functions in: implementations are
    known by name; numpy has [exp], [negative] and [maximum]; the special
    function library has [expm1] and [log1p], entered with the
    dispatch-control argument, and [bare_entry], entered without one; all
    three for real arguments only. *)
#[export] Instance demo : Externals := {|
  Callable := string;
  CythonFunc := string;
  Signature := list dtype * list dtype * bool;
  NameGen := NameScope;
  np_getattr := fun name =>
    if bool_decide (name ∈ ["exp"; "negative"; "maximum"]) then Some name else None;
  cython_special_getattr := fun name =>
    if bool_decide (name ∈ ["expm1"; "log1p"; "bare_entry"]) then Some name else None;
  wrap_cython_function := fun f restype arg_types =>
    if forallb is_float_dtype (restype :: arg_types) then
      Ok (demo_handle f (negb (String.eqb f "bare_entry")) arg_types)
    else Raise (NotImplementedError "no compatible signature");
  generate_fallback_impl := fun _ _ _ => "fallback_impl";
  get_name_for_object := fun f => f;
  unique_name_generator := spec_unique_name_generator;
  unique_names := spec_unique_names;
  create_numba_signature := spec_signature;
  numba_funcify_FunctionGraph := fun _ _ => "numba_funcified_fgraph";
  module_globals := {[ "np" := GModule "numpy"; "math" := GModule "math" ]};
  config_numba__fastmath := true
|}.

(** Run-time values of the concrete environment. *)
Inductive pyval : Type :=
| PInt (z : Z)
| PFloat (f : float).

Definition Z_to_float (z : Z) : float :=
  if (z <? 0)%Z then (- of_uint63 (Uint63.of_Z (- z)))%float
  else of_uint63 (Uint63.of_Z z).

#[export] Instance demo_runtime : Runtime string := {|
  value := pyval;
  call_impl := fun f args =>
    match f, args with
    | "expm1", [PFloat x; PInt 1] => Some (PFloat (@np_expm1 series_libm x))
    | "log1p", [PFloat x; PInt 1] => Some (PFloat (@np_log1p series_libm x))
    | "bare_entry", [PFloat x] => Some (PFloat (@np_exp series_libm x))
    | "exp", [PFloat x] => Some (PFloat (@np_exp series_libm x))
    | "negative", [PInt z] => Some (PInt (- z))
    | "negative", [PFloat x] => Some (PFloat (- x))
    | "maximum", [PInt a; PInt b] => Some (PInt (Z.max a b))
    | _, _ => None
    end;
  direct_cast := fun v d =>
    match v with
    | PInt z => if is_float_dtype d then PFloat (Z_to_float z) else PInt z
    | PFloat x => PFloat x
    end;
  np_intc := PInt;
  py_binop := fun op a b =>
    match op, a, b with
    | "+", PInt x, PInt y => Some (PInt (x + y))
    | "*", PInt x, PInt y => Some (PInt (x * y))
    | "+", PFloat x, PFloat y => Some (PFloat (x + y))
    | "*", PFloat x, PFloat y => Some (PFloat (x * y))
    | _, _, _ => None
    end
|}.

Definition scalar_var (id : nat) (name : string) (d : dtype) : ScalarVariable :=
  {| var_id := id; var_name := name; var_dtype := d |}.

(** A node with three [int64] inputs named [x], [y], [z] and one output. *)
Definition node3 : Apply :=
  {| inputs := [scalar_var 0 "x" int64; scalar_var 1 "y" int64; scalar_var 2 "z" int64];
     outputs := [scalar_var 3 "out" int64] |}.

(** A node with one [float32] input and one [float32] output. *)
Definition node_f32 : Apply :=
  {| inputs := [scalar_var 0 "x" float32]; outputs := [scalar_var 1 "out" float32] |}.

(** A node with a [float64] input and two outputs. *)
Definition node_two_outputs : Apply :=
  {| inputs := [scalar_var 0 "x" float64];
     outputs := [scalar_var 1 "out" float64; scalar_var 2 "out" float64] |}.

(** A complex-valued node. *)
Definition node_c128 : Apply :=
  {| inputs := [scalar_var 0 "x" complex128]; outputs := [scalar_var 1 "out" complex128] |}.

Definition op_expm1 : ScalarOp := {| nfunc_spec := Some ("scipy.special.expm1", 1, 1) |}.
Definition op_exp : ScalarOp := {| nfunc_spec := Some ("exp", 1, 1) |}.
Definition op_missing_special : ScalarOp :=
  {| nfunc_spec := Some ("scipy.special.no_such_routine", 1, 1) |}.
Definition op_missing_numpy : ScalarOp := {| nfunc_spec := Some ("no_such_ufunc", 1, 1) |}.
Definition op_plain : ScalarOp := {| nfunc_spec := None |}.
Definition op_bare_entry : ScalarOp :=
  {| nfunc_spec := Some ("scipy.special.bare_entry", 1, 1) |}.

(** The inner graph of a Composite computing [(a + b) * 2]. *)
Definition composite_add_mul : Composite :=
  let a := scalar_var 0 "a" int64 in
  let b := scalar_var 1 "b" int64 in
  let s := scalar_var 2 "s" int64 in
  let two := scalar_var 3 "two" int64 in
  let o := scalar_var 4 "o" int64 in
  {| fgraph := {| fg_inputs := [a; b]; fg_outputs := [o];
                  fg_apply_nodes := [ {| inputs := [a; b]; outputs := [s] |};
                                      {| inputs := [s; two]; outputs := [o] |} ] |} |}.

(* ===================================================================== *)
(** ** Structure of the emitted wrappers                                 *)
(* ===================================================================== *)

(** The trailing dispatch-control argument, when it is appended. *)
Definition dispatch_args (flag : bool) : list expr :=
  if flag then [NpIntc 1] else [].

(** [direct_cast(i_name, i_tmp_dtype_name)]. *)
Definition cast_arg (i_name i_tmp_dtype_name : string) : expr :=
  Call "direct_cast" [Name i_name; Name i_tmp_dtype_name].

(** The wrapper of lines 98-107 as a definition. *)
Definition forward_def (scalar_op_fn_name : string) (input_names : list string)
    (flag : bool) : FunctionDef :=
  {| def_name := scalar_op_fn_name;
     def_args := input_names;
     def_return :=
       Call "scalar_func_numba" (List.map Name input_names ++ dispatch_args flag) |}.

(** The wrapper of lines 132-141 as a definition. *)
Definition casting_def (scalar_op_fn_name : string) (input_names tmp_names : list string)
    (flag : bool) : FunctionDef :=
  {| def_name := scalar_op_fn_name;
     def_args := input_names;
     def_return :=
       Call "direct_cast"
         [Call "scalar_func_numba"
            (zip_with cast_arg input_names tmp_names ++ dispatch_args flag);
          Name "output_dtype"] |}.

(** [n1 op n2 op ... op nk], which Python reads as a left-nested chain. *)
Definition chain (op : string) (first : string) (rest : list string) : expr :=
  foldl (fun acc n => BinOp acc op (Name n)) (Name first) rest.

(** The n-ary function of [binary_to_nary_func] as a definition. *)
Definition nary_def (binary_op_name binary_op : string) (first : string)
    (rest : list string) : FunctionDef :=
  {| def_name := binary_op_name;
     def_args := first :: rest;
     def_return := chain binary_op first rest |}.

(** Left-to-right fold of a binary operator over run-time values. *)
Definition fold_binop {C} `{Runtime C} (op : string) (first : value)
    (rest : list value) : option value :=
  foldl (fun acc v => a ← acc; py_binop op a v) (Some first) rest.

(** The path of a descriptor is a bare name that numpy does not have. *)
Definition bare_name_missing `{Externals} (path : string) : bool :=
  match unpack_last (split_dot path) with
  | ([], name) => match np_getattr name with Some _ => false | None => true end
  | _ => false
  end.

(* ===================================================================== *)
(** ** The operator methods of XlogX and XlogY0: c_code and grad          *)
(* ===================================================================== *)

Definition is_numpy_lookup (ev : Event) : bool :=
  match ev with EvNumpyGetattr _ => true | _ => false end.
Definition is_cython_lookup (ev : Event) : bool :=
  match ev with EvCythonSpecialGetattr _ => true | _ => false end.

(** Exceptions of the operator methods: those above, and [IndexError]. *)
Inductive py_error : Type :=
| Builtin (e : exn)
| IndexError (msg : string).

Inductive returned (A : Type) : Type :=
| Return (a : A)
| Raised (e : py_error).
Arguments Return {A} a.
Arguments Raised {A} e.

(** The [ValueError] of a tuple-unpacking assignment that expects
    [expected] values and finds [got]. *)
Definition unpack_error (expected got : nat) : py_error :=
  Builtin
    (ValueError
       (if got <? expected
        then "not enough values to unpack (expected " +:+ pretty expected
               +:+ ", got " +:+ pretty got +:+ ")"
        else "too many values to unpack (expected " +:+ pretty expected +:+ ")")).

Definition indent16 : string := "                ".

(** The template of both [c_code] methods, with the operand of [log]. *)
Definition xlog_template (z x y : string) : string :=
  z +:+ " =" +:+ NL
    +:+ indent16 +:+ x +:+ " == 0.0" +:+ NL
    +:+ indent16 +:+ "? 0.0" +:+ NL
    +:+ indent16 +:+ ": " +:+ x +:+ " * log(" +:+ y +:+ ");".

(** [node.inputs[0].type in [ts.float32, ts.float64]]. *)
Definition first_input_is_float (node : Apply) : returned bool :=
  match inputs node with
  | [] => Raised (IndexError "list index out of range")
  | v :: _ => Return (bool_decide (var_dtype v ∈ [float32; float64]))
  end.

(** xlogx.py, [XlogX.c_code]; [c_inputs] and [c_outputs] are the method's
    [inputs] and [outputs], the names of the C variables. *)
Definition XlogX_c_code (node : Apply) (c_inputs c_outputs : list string)
    : returned string :=
  match c_inputs with
  | [x] =>
      match c_outputs with
      | [z] =>
          match first_input_is_float node with
          | Return true => Return (xlog_template z x x)
          | Return false =>
              Raised (Builtin (NotImplementedError "only floatingpoint is implemented"))
          | Raised e => Raised e
          end
      | _ => Raised (unpack_error 1 (length c_outputs))
      end
  | _ => Raised (unpack_error 1 (length c_inputs))
  end.

(** xlogx.py, [XlogY0.c_code]. *)
Definition XlogY0_c_code (node : Apply) (c_inputs c_outputs : list string)
    : returned string :=
  match c_inputs with
  | [x; y] =>
      match c_outputs with
      | [z] =>
          match first_input_is_float node with
          | Return true => Return (xlog_template z x y)
          | Return false =>
              Raised (Builtin (NotImplementedError "only floatingpoint is implemented"))
          | Raised e => Raised e
          end
      | _ => Raised (unpack_error 1 (length c_outputs))
      end
  | _ => Raised (unpack_error 2 (length c_inputs))
  end.

(** The C fragment of the template. *)
Inductive cexpr : Type :=
| CVar (id : string)
| CZero                                   (* the literal [0.0] *)
| CEq (a b : cexpr)
| CCond (c t e : cexpr)
| CMul (a b : cexpr)
| CLog (a : cexpr).

Fixpoint unparse_c (e : cexpr) : string :=
  match e with
  | CVar id => id
  | CZero => "0.0"
  | CEq a b => unparse_c a +:+ " == " +:+ unparse_c b
  | CCond c t e =>
      unparse_c c +:+ NL +:+ indent16 +:+ "? " +:+ unparse_c t +:+ NL
        +:+ indent16 +:+ ": " +:+ unparse_c e
  | CMul a b => unparse_c a +:+ " * " +:+ unparse_c b
  | CLog a => "log(" +:+ unparse_c a +:+ ")"
  end.

(** [z = rhs;] as the template lays it out. *)
Definition unparse_c_assign (z : string) (rhs : cexpr) : string :=
  z +:+ " =" +:+ NL +:+ indent16 +:+ unparse_c rhs +:+ ";".

(** The right-hand side of the template. *)
Definition xlog_rhs (x y : string) : cexpr :=
  CCond (CEq (CVar x) CZero) CZero (CMul (CVar x) (CLog (CVar y))).

Section CSemantics.
Context `{L : Libm}.

(** Evaluation on doubles: [==] gives 1 or 0, [?:] evaluates the condition
    and then only the branch it selects. *)
Fixpoint eval_c (env : gmap string float) (e : cexpr) : option (Traced float) :=
  match e with
  | CVar id => v ← env !! id; Some (v, [])
  | CZero => Some (0%float, [])
  | CEq a b =>
      '(x, t) ← eval_c env a;
      '(y, t') ← eval_c env b;
      Some (if PrimFloat.eqb x y then 1%float else 0%float, t ++ t')
  | CCond c t e =>
      '(b, tc) ← eval_c env c;
      '(v, tv) ← (if PrimFloat.eqb b 0%float then eval_c env e else eval_c env t);
      Some (v, tc ++ tv)
  | CMul a b =>
      '(x, t) ← eval_c env a;
      '(y, t') ← eval_c env b;
      Some ((x * y)%float, t ++ t')
  | CLog a =>
      '(x, t) ← eval_c env a;
      Some (np_log x, t ++ [CallLog x])
  end.
End CSemantics.

(** Symbolic scalar expressions, as the [grad] methods build them with
    [*], [+], [/] and [ts.log]. *)
Inductive sexpr : Type :=
| SVar (name : string)
| SConst (c : Z)
| SAdd (a b : sexpr)
| SMul (a b : sexpr)
| STrueDiv (a b : sexpr)
| SLog (a : sexpr).

(** xlogx.py, [XlogX.grad]:
<<
    (x,) = inputs
    (gz,) = grads
    return [gz * (1 + ts.log(x))]
>> *)
Definition XlogX_grad (g_inputs grads : list sexpr) : returned (list sexpr) :=
  match g_inputs with
  | [x] =>
      match grads with
      | [gz] => Return [SMul gz (SAdd (SConst 1) (SLog x))]
      | _ => Raised (unpack_error 1 (length grads))
      end
  | _ => Raised (unpack_error 1 (length g_inputs))
  end.

(** xlogx.py, [XlogY0.grad]:
<<
    x, y = inputs
    (gz,) = grads
    return [gz * ts.log(y), gz * x / y]
>> *)
Definition XlogY0_grad (g_inputs grads : list sexpr) : returned (list sexpr) :=
  match g_inputs with
  | [x; y] =>
      match grads with
      | [gz] => Return [SMul gz (SLog y); STrueDiv (SMul gz x) y]
      | _ => Raised (unpack_error 1 (length grads))
      end
  | _ => Raised (unpack_error 2 (length g_inputs))
  end.

(** The real number a symbolic expression denotes. *)
Fixpoint denote (env : string -> R) (e : sexpr) : R :=
  match e with
  | SVar name => env name
  | SConst c => IZR c
  | SAdd a b => (denote env a + denote env b)%R
  | SMul a b => (denote env a * denote env b)%R
  | STrueDiv a b => (denote env a / denote env b)%R
  | SLog a => ln (denote env a)
  end.

(** Two nodes for [c_code]: an integer first input with a float second
    one, and the other way round. *)
Definition int_then_float_node : Apply :=
  {| inputs := [scalar_var 0 "x" int64; scalar_var 1 "y" float64];
     outputs := [scalar_var 2 "z" float64] |}.
Definition float_then_int_node : Apply :=
  {| inputs := [scalar_var 0 "x" float64; scalar_var 1 "y" int64];
     outputs := [scalar_var 2 "z" float64] |}.

(* ===================================================================== *)
(** * Properties                                                         *)
(* ===================================================================== *)

(** ** IEEE comparison facts used by the float kernels *)

Lemma SFcompare_antisym (a b : spec_float) (c : comparison) :
  SFcompare a b = Some c -> SFcompare b a = Some (CompOpp c).
Proof.
  destruct a as [sa | sa | | sa ma ea], b as [sb | sb | | sb mb eb];
    simpl; try discriminate;
    try (intros [= <-]; reflexivity);
    try (destruct sa; intros [= <-]; reflexivity);
    try (destruct sb; intros [= <-]; reflexivity);
    try (destruct sa, sb; intros [= <-]; reflexivity).
  rewrite (Z.compare_antisym ea eb), !Pos.compare_cont_spec.
  rewrite (Pos.compare_antisym ma mb). simpl.
  destruct sa, sb; intros [= <-]; try reflexivity;
    destruct (ea ?= eb)%Z; simpl; try reflexivity;
    destruct (ma ?= mb)%positive; reflexivity.
Qed.

Lemma float_ltb_false_of_leb (x c : float) :
  PrimFloat.leb c x = true -> PrimFloat.ltb x c = false.
Proof.
  rewrite leb_spec, ltb_spec. unfold SFleb, SFltb.
  destruct (SFcompare (Prim2SF c) (Prim2SF x)) as [cmp|] eqn:Hc; [|discriminate].
  rewrite (SFcompare_antisym _ _ _ Hc).
  destruct cmp; simpl; congruence.
Qed.

Lemma float_ltb_irrefl (x : float) : PrimFloat.ltb x x = false.
Proof.
  rewrite ltb_spec. unfold SFltb.
  destruct (SFcompare (Prim2SF x) (Prim2SF x)) as [cmp|] eqn:Hc; [|reflexivity].
  pose proof (SFcompare_antisym _ _ _ Hc) as Hc'. rewrite Hc in Hc'.
  destruct cmp; simpl in Hc'; congruence.
Qed.

(** ** Log1mexp *)

(** C7. [logp1mexp] computes [log1p(-exp(x))] for every [x] strictly below
    [log(0.5)] and [log(-expm1(x))] for every [x] at or above [log(0.5)];
    at [x] equal to [log(0.5)] the result is [log(-expm1(x))].  The library
    calls made are exactly those of the branch taken. *)
Theorem logp1mexp_branches `{L : Libm} (x : float) :
  (PrimFloat.ltb x (np_log 0.5%float) = true ->
     logp1mexp x = (np_log1p (- np_exp x)%float,
                    [CallLog 0.5%float; CallExp x; CallLog1p (- np_exp x)%float]))
  /\ (PrimFloat.leb (np_log 0.5%float) x = true ->
     logp1mexp x = (np_log (- np_expm1 x)%float,
                    [CallLog 0.5%float; CallExpm1 x; CallLog (- np_expm1 x)%float]))
  /\ (x = np_log 0.5%float ->
     fst (logp1mexp x) = np_log (- np_expm1 x)%float).
Proof.
  unfold logp1mexp, mbind, Traced_bind; simpl.
  repeat split.
  - intros ->. reflexivity.
  - intros Hle. rewrite (float_ltb_false_of_leb _ _ Hle). reflexivity.
  - intros ->. rewrite float_ltb_irrefl. reflexivity.
Qed.

Lemma logp1mexp_branches_witness :
  (PrimFloat.ltb (-1)%float (@np_log series_libm 0.5%float) = true
   /\ @logp1mexp series_libm (-1)%float
      = (@np_log1p series_libm (- @np_exp series_libm (-1))%float,
         [CallLog 0.5%float; CallExp (-1)%float;
          CallLog1p (- @np_exp series_libm (-1))%float]))
  /\ (PrimFloat.leb (@np_log series_libm 0.5%float) (-0.25)%float = true
   /\ @logp1mexp series_libm (-0.25)%float
      = (@np_log series_libm (- @np_expm1 series_libm (-0.25))%float,
         [CallLog 0.5%float; CallExpm1 (-0.25)%float;
          CallLog (- @np_expm1 series_libm (-0.25))%float]))
  /\ fst (@logp1mexp series_libm (@np_log series_libm 0.5%float))
     = @np_log series_libm
         (- @np_expm1 series_libm (@np_log series_libm 0.5%float))%float.
Proof.
  pose proof (@logp1mexp_branches series_libm (-1)%float) as (H1 & _ & _).
  pose proof (@logp1mexp_branches series_libm (-0.25)%float) as (_ & H2 & _).
  pose proof (@logp1mexp_branches series_libm (@np_log series_libm 0.5%float))
    as (_ & _ & H3).
  split; [split; [reflexivity | apply H1; reflexivity] |].
  split; [split; [reflexivity | apply H2; reflexivity] |].
  apply H3; reflexivity.
Defined.

(** ** XlogY0 *)

(** C10. Applied to a first argument equal to [0.0], [XlogY0.st_impl]
    returns exactly [0.0] for every second argument and makes no call to
    [log]. *)
Theorem XlogY0_zero_first `{L : Libm} (x y : float) :
  PrimFloat.eqb x 0%float = true ->
  XlogY0_st_impl x y = (0%float, []).
Proof. intros Hx. unfold XlogY0_st_impl. rewrite Hx. reflexivity. Qed.

Lemma XlogY0_zero_first_witness :
  PrimFloat.eqb 0%float 0%float = true
  /\ @XlogY0_st_impl series_libm 0%float (-3)%float = (0%float, [])
  /\ @XlogY0_st_impl series_libm (-0)%float 0%float = (0%float, []).
Proof.
  split; [reflexivity |].
  split; apply (@XlogY0_zero_first series_libm); reflexivity.
Defined.

(** Away from zero the product is computed, with one call to [log]. *)
Lemma XlogY0_nonzero_first `{L : Libm} (x y : float) :
  PrimFloat.eqb x 0%float = false ->
  XlogY0_st_impl x y = ((x * np_log y)%float, [CallLog y]).
Proof. intros Hx. unfold XlogY0_st_impl. rewrite Hx. reflexivity. Qed.

(** ** Clip *)

(** C9. [clip] coerces its three operands with [to_scalar] and compares
    only the coerced values: it returns the coerced lower bound when the
    value is below it, otherwise the coerced upper bound when the value is
    above it, otherwise the coerced value; [clip(5, 0, 3) = 3],
    [clip(-1, 0, 3) = 0] and [clip(2, 0, 3) = 2]. *)
Theorem clip_cases {Operand T : Type} `{PyOrd T} (coerce : Operand -> T)
    (_x _min _max : Operand) :
  (py_lt (coerce _x) (coerce _min) = true ->
     clip coerce _x _min _max = coerce _min)
  /\ (py_lt (coerce _x) (coerce _min) = false ->
      py_gt (coerce _x) (coerce _max) = true ->
     clip coerce _x _min _max = coerce _max)
  /\ (py_lt (coerce _x) (coerce _min) = false ->
      py_gt (coerce _x) (coerce _max) = false ->
     clip coerce _x _min _max = coerce _x)
  /\ clip to_scalar (Scalar 5%Z) (Scalar 0%Z) (Scalar 3%Z) = 3%Z
  /\ clip to_scalar (Scalar (-1)%Z) (Scalar 0%Z) (Scalar 3%Z) = 0%Z
  /\ clip to_scalar (Scalar 2%Z) (Scalar 0%Z) (Scalar 3%Z) = 2%Z.
Proof.
  unfold clip. repeat split; try reflexivity.
  - intros ->. reflexivity.
  - intros -> ->. reflexivity.
  - intros -> ->. reflexivity.
Qed.

Lemma clip_cases_witness :
  (py_lt (to_scalar (Array0d (-7)%Z)) (to_scalar (Scalar 0%Z)) = true
   /\ clip to_scalar (Array0d (-7)%Z) (Scalar 0%Z) (Scalar 3%Z) = 0%Z)
  /\ (py_gt (to_scalar (Scalar 9%Z)) (to_scalar (Array0d 3%Z)) = true
   /\ clip to_scalar (Scalar 9%Z) (Scalar 0%Z) (Array0d 3%Z) = 3%Z)
  /\ (py_gt (to_scalar (Scalar 1%Z)) (to_scalar (Scalar 3%Z)) = false
   /\ clip to_scalar (Scalar 1%Z) (Array0d 0%Z) (Scalar 3%Z) = 1%Z).
Proof.
  pose proof (clip_cases (@to_scalar Z) (Array0d (-7)%Z) (Scalar 0%Z) (Scalar 3%Z))
    as (H1 & _).
  pose proof (clip_cases (@to_scalar Z) (Scalar 9%Z) (Scalar 0%Z) (Array0d 3%Z))
    as (_ & H2 & _).
  pose proof (clip_cases (@to_scalar Z) (Scalar 1%Z) (Array0d 0%Z) (Scalar 3%Z))
    as (_ & _ & H3 & _).
  split; [split; [reflexivity | apply H1; reflexivity] |].
  split; [split; [reflexivity | apply H2; reflexivity] |].
  split; [reflexivity | apply H3; reflexivity].
Defined.

(** On integers with ordered bounds the two comparisons exclude each other,
    so a value above the upper bound is clipped to it without further
    condition. *)
Lemma clip_Z_ordered_bounds (x m M : Z) :
  (m <= M)%Z ->
  ((x < m)%Z -> clip to_scalar (Scalar x) (Scalar m) (Scalar M) = m)
  /\ ((x > M)%Z -> clip to_scalar (Scalar x) (Scalar m) (Scalar M) = M)
  /\ ((m <= x <= M)%Z -> clip to_scalar (Scalar x) (Scalar m) (Scalar M) = x).
Proof.
  intros Hb. unfold clip, py_lt, py_gt, Z_PyOrd, to_scalar.
  repeat split; intros Hx;
    destruct (Z.ltb_spec x m), (Z.gtb_spec x M); try reflexivity; lia.
Qed.

(** With the bounds the wrong way round the lower bound is tested first. *)
Example clip_crossed_bounds :
  clip to_scalar (Scalar 5%Z) (Scalar 10%Z) (Scalar 3%Z) = 10%Z.
Proof. reflexivity. Qed.

(** ** Strings *)

Lemma string_app_assoc (a b c : string) : (a +:+ b) +:+ c = a +:+ (b +:+ c).
Proof.
  induction a as [|ch a IH]; [reflexivity|].
  change (String ch ((a +:+ b) +:+ c) = String ch (a +:+ (b +:+ c))).
  by rewrite IH.
Qed.

Lemma prefix_app (p s : string) :
  String.prefix p s = true -> exists rest, s = p +:+ rest.
Proof.
  revert s. induction p as [|a p IH]; intros s Hp.
  - exists s. reflexivity.
  - destruct s as [|b s]; simpl in Hp; [discriminate|].
    destruct (Ascii.ascii_dec a b) as [->|]; [|discriminate].
    destruct (IH s Hp) as [rest ->]. exists rest. reflexivity.
Qed.

Lemma split_dot_go_nonempty (cur s : string) : split_dot_go cur s <> [].
Proof.
  revert cur. induction s as [|c s IH]; intros cur; simpl; [discriminate|].
  destruct (Ascii.eqb c "."); [discriminate | apply IH].
Qed.

Lemma removelast_cons_nonempty {A} (x : A) (l : list A) :
  l <> [] -> removelast (x :: l) <> [].
Proof. destruct l; [congruence | discriminate]. Qed.

(** A path under [scipy.special] always has a module part. *)
Lemma scipy_special_has_module_path (path : string) :
  startswith path "scipy.special" = true ->
  (unpack_last (split_dot path)).1 <> [].
Proof.
  intros Hp. apply prefix_app in Hp as [rest ->].
  unfold unpack_last, split_dot. simpl.
  apply removelast_cons_nonempty, split_dot_go_nonempty.
Qed.

Lemma py_join_snoc (sep : string) (l : list string) (x : string) :
  l <> [] -> py_join sep (l ++ [x]) = py_join sep l +:+ sep +:+ x.
Proof.
  induction l as [|a l IH]; [congruence|]. intros _.
  destruct l as [|b l].
  - reflexivity.
  - change (py_join sep ((a :: b :: l) ++ [x]))
      with (a +:+ sep +:+ py_join sep ((b :: l) ++ [x])).
    rewrite IH by discriminate.
    change (py_join sep (a :: b :: l)) with (a +:+ sep +:+ py_join sep (b :: l)).
    by rewrite !string_app_assoc.
Qed.

Lemma map_unparse_names (names : list string) :
  List.map unparse (List.map Name names) = names.
Proof. induction names as [|n ns IH]; simpl; [reflexivity | by rewrite IH]. Qed.

Lemma map_unparse_casts (names tmp : list string) :
  List.map unparse (zip_with cast_arg names tmp)
  = zip_with (fun i_name i_tmp_dtype_name =>
                "direct_cast(" +:+ i_name +:+ ", " +:+ i_tmp_dtype_name +:+ ")")
             names tmp.
Proof.
  revert tmp. induction names as [|n ns IH]; intros [|t ts]; try reflexivity.
  cbn [zip_with List.map]. rewrite IH. f_equal.
  cbn [cast_arg unparse List.map py_join]. rewrite !string_app_assoc. reflexivity.
Qed.

(** The text of lines 98-107 is the concrete syntax of [forward_def]. *)
Lemma forward_src_unparse (fn : string) (names : list string) (flag : bool) :
  names <> [] \/ flag = false ->
  forward_src fn (py_join ", " names) flag = unparse_def tail12 (forward_def fn names flag).
Proof.
  intros Hne. unfold forward_src, unparse_def, forward_def. cbn [def_name def_args def_return unparse].
  rewrite List.map_app, map_unparse_names.
  destruct flag; simpl negb; cbv iota.
  - destruct Hne as [Hne | ?]; [|discriminate].
    cbn [dispatch_args List.map unparse].
    rewrite py_join_snoc by done.
    rewrite !string_app_assoc. reflexivity.
  - cbn [dispatch_args List.map]. rewrite app_nil_r.
    rewrite !string_app_assoc. reflexivity.
Qed.

(** The text of lines 132-141 is the concrete syntax of [casting_def]. *)
Lemma casting_src_unparse (fn : string) (names tmp : list string) (flag : bool) :
  (names <> [] /\ tmp <> []) \/ flag = false ->
  casting_src fn names
    (py_join ", "
       (zip_with (fun i_name i_tmp_dtype_name =>
                    "direct_cast(" +:+ i_name +:+ ", " +:+ i_tmp_dtype_name +:+ ")")
                 names tmp)) flag
  = unparse_def tail12 (casting_def fn names tmp flag).
Proof.
  intros Hne. unfold casting_src, unparse_def, casting_def.
  cbn [def_name def_args def_return unparse List.map py_join].
  rewrite List.map_app, map_unparse_casts.
  destruct flag; simpl negb; cbv iota.
  - destruct Hne as [[Hn Ht] | ?]; [|discriminate].
    cbn [dispatch_args List.map unparse].
    rewrite py_join_snoc by (destruct names, tmp; done).
    rewrite !string_app_assoc. reflexivity.
  - cbn [dispatch_args List.map]. rewrite app_nil_r.
    rewrite !string_app_assoc. reflexivity.
Qed.

Lemma unparse_chain (op first : string) (rest : list string) :
  unparse (chain op first rest) = py_join op (first :: rest).
Proof.
  unfold chain. induction rest as [|x rest IH] using rev_ind; [reflexivity|].
  rewrite foldl_snoc. cbn [unparse]. rewrite IH.
  change (first :: rest ++ [x]) with ((first :: rest) ++ [x]).
  rewrite py_join_snoc by discriminate.
  reflexivity.
Qed.

(** ** Running the lowering functions *)

Section LoweringFacts.
Context `{E : Externals}.

Lemma bind_ok {A B} (l : list Event) (a : A) (k : A -> M B) :
  ((l, Ok a) ≫= k) = (l ++ (k a).1, (k a).2).
Proof. unfold mbind, M_bind. simpl. by destruct (k a). Qed.

Lemma bind_raise {A B} (l : list Event) (e : exn) (k : A -> M B) :
  ((l, Raise e) ≫= k) = (l, Raise e).
Proof. reflexivity. Qed.

(** The wrapper that forwards its parameters (lines 91-107, 143-154). *)
Lemma synthesize_forward (node : Apply) (r : Resolved) :
  input_inner_dtypes r = None ->
  output_inner_dtype r = None ->
  let fn := get_name_for_object (scalar_func_numba r) in
  let reserved := [fn; "scalar_func_numba"] in
  let names := fresh_names (unique_name_generator reserved "_") (inputs node) in
  let src := forward_src fn (py_join ", " names) (truth (pyx_skip_dispatch r)) in
  synthesize_wrapper node r
  = ([EvGetNameForObject; EvUniqueNameGenerator reserved;
      EvUniqueNameGenerator reserved]
       ++ zip_with EvUniqueName (inputs node) names
       ++ [EvCompileFunctionSrc src fn; EvCreateNumbaSignature true;
           EvNumbaNjit (Some false)],
     Ok (Jitted
           {| njit_signature := Some (create_numba_signature (OfNode node) true);
              njit_fastmath := Some config_numba__fastmath;
              njit_cache := Some false |}
           (Source {| fn_src := src; fn_name := fn;
                      fn_globals :=
                        <["scalar_func_numba" := GImpl (scalar_func_numba r)]>
                          module_globals |}))).
Proof.
  intros Hi Ho. unfold synthesize_wrapper. rewrite Hi, Ho.
  unfold mbind, M_bind. simpl. rewrite app_nil_r. reflexivity.
Qed.

(** The wrapper that casts (lines 109-154). *)
Lemma synthesize_casting (node : Apply) (r : Resolved) (ins : list dtype)
    (out : dtype) :
  input_inner_dtypes r = Some ins ->
  output_inner_dtype r = Some out ->
  let fn := get_name_for_object (scalar_func_numba r) in
  let tmp := input_tmp_dtype_names ins in
  let global_env : Env :=
    [("scalar_func_numba", GImpl (scalar_func_numba r));
     ("direct_cast", GDirectCast); ("output_dtype", GDtype out)]
      ++ List.map (fun kv => (kv.1, GDtype kv.2)) tmp in
  let reserved := [fn; "scalar_func_numba"] ++ List.map fst global_env in
  let names := fresh_names (unique_name_generator reserved "_") (inputs node) in
  let src :=
    casting_src fn names
      (py_join ", "
         (zip_with (fun i_name i_tmp_dtype_name =>
                      "direct_cast(" +:+ i_name +:+ ", " +:+ i_tmp_dtype_name +:+ ")")
                   names (List.map fst tmp)))
      (truth (pyx_skip_dispatch r)) in
  synthesize_wrapper node r
  = ([EvGetNameForObject; EvUniqueNameGenerator [fn; "scalar_func_numba"];
      EvUniqueNameGenerator reserved]
       ++ zip_with EvUniqueName (inputs node) names
       ++ [EvCompileFunctionSrc src fn; EvCreateNumbaSignature true;
           EvNumbaNjit (Some false)],
     Ok (Jitted
           {| njit_signature := Some (create_numba_signature (OfNode node) true);
              njit_fastmath := Some config_numba__fastmath;
              njit_cache := Some false |}
           (Source {| fn_src := src; fn_name := fn;
                      fn_globals := dict_update module_globals global_env |}))).
Proof.
  intros Hi Ho. unfold synthesize_wrapper. rewrite Hi, Ho.
  unfold mbind, M_bind. simpl. rewrite app_nil_r. reflexivity.
Qed.

(** Lines 44-56 when the node does not have exactly one output. *)
Lemma resolve_not_single_output (op : ScalarOp) (node : Apply)
    (kwargs : gmap string KwVal) (path : string) :
  length (outputs node) <> 1 ->
  resolve_implementation op node kwargs path
  = (match (unpack_last (split_dot path)).1 with
     | [] => [EvNumpyGetattr (unpack_last (split_dot path)).2]
     | _ => []
     end,
     Raise (if bare_name_missing path
            then AttributeError "numpy" (unpack_last (split_dot path)).2
            else ValueError "ScalarOps with more than one output are not supported")).
Proof.
  intros Hlen. unfold resolve_implementation, bare_name_missing.
  destruct (unpack_last (split_dot path)) as [module_path name]. simpl.
  assert (Hout : forall A (k : dtype -> M A) (z : M A),
             match List.map (fun output => np_dtype (var_dtype output)) (outputs node) with
             | [o] => k o
             | _ => z
             end = z).
  { intros A k z. destruct (outputs node) as [|o1 [|o2 os]]; simpl in *; congruence. }
  destruct module_path as [|m ms].
  - unfold call_np_getattr. destruct (np_getattr name) as [f|]; [|reflexivity].
    unfold mbind, M_bind. simpl. rewrite Hout. reflexivity.
  - unfold mbind, M_bind. simpl. rewrite Hout. reflexivity.
Qed.

(** Lines 44-82 when the special-function bridge resolves the routine. *)
Lemma resolve_bridge (op : ScalarOp) (node : Apply) (kwargs : gmap string KwVal)
    (path : string) (o : ScalarVariable) (cf : CythonFunc) (h : Handle Callable) :
  outputs node = [o] ->
  startswith path "scipy.special" = true ->
  cython_special_getattr (unpack_last (split_dot path)).2 = Some cf ->
  wrap_cython_function cf (var_dtype o) (var_dtype <$> inputs node) = Ok h ->
  resolve_implementation op node kwargs path
  = ([EvCythonSpecialGetattr (unpack_last (split_dot path)).2;
      EvWrapCythonFunction (var_dtype o) (var_dtype <$> inputs node)],
     Ok {| scalar_func_numba := handle_callable h;
           pyx_skip_dispatch := has_pyx_skip_dispatch h;
           input_inner_dtypes := Some (numpy_arg_dtypes h);
           output_inner_dtype := Some (numpy_output_dtype h) |}).
Proof.
  intros Hout Hpre Hget Hwrap.
  pose proof (scipy_special_has_module_path _ Hpre) as Hmod.
  unfold resolve_implementation.
  destruct (unpack_last (split_dot path)) as [module_path name]. simpl in *.
  destruct module_path as [|m ms]; [congruence|].
  rewrite Hout, Hpre. unfold np_dtype at 1. simpl.
  unfold call_cython_special_getattr, call_wrap_cython_function.
  rewrite Hget. unfold mbind, M_bind. simpl.
  change (List.map (fun input => np_dtype (var_dtype input)) (inputs node))
    with (var_dtype <$> inputs node).
  rewrite Hwrap. reflexivity.
Qed.

(** Lines 44-82 when a namespaced routine is not found: the generic
    fallback becomes the implementation. *)
Lemma resolve_unresolved (op : ScalarOp) (node : Apply) (kwargs : gmap string KwVal)
    (path : string) (o : ScalarVariable) :
  outputs node = [o] ->
  (unpack_last (split_dot path)).1 <> [] ->
  (startswith path "scipy.special" = true ->
   cython_special_getattr (unpack_last (split_dot path)).2 = None) ->
  resolve_implementation op node kwargs path
  = ((if startswith path "scipy.special"
      then [EvCythonSpecialGetattr (unpack_last (split_dot path)).2] else [])
       ++ [EvGenerateFallbackImpl],
     Ok {| scalar_func_numba := generate_fallback_impl op node kwargs;
           pyx_skip_dispatch := AttrBool false;
           input_inner_dtypes := None;
           output_inner_dtype := None |}).
Proof.
  intros Hout Hmod Hget. unfold resolve_implementation.
  destruct (unpack_last (split_dot path)) as [module_path name]. simpl in *.
  destruct module_path as [|m ms]; [congruence|].
  rewrite Hout. simpl.
  destruct (startswith path "scipy.special").
  - unfold call_cython_special_getattr. rewrite Hget by reflexivity. reflexivity.
  - reflexivity.
Qed.

(** Lines 44-82 for a bare name that numpy has. *)
Lemma resolve_numpy (op : ScalarOp) (node : Apply) (kwargs : gmap string KwVal)
    (path : string) (o : ScalarVariable) (f : Callable) :
  outputs node = [o] ->
  (unpack_last (split_dot path)).1 = [] ->
  np_getattr (unpack_last (split_dot path)).2 = Some f ->
  resolve_implementation op node kwargs path
  = ([EvNumpyGetattr (unpack_last (split_dot path)).2],
     Ok {| scalar_func_numba := f; pyx_skip_dispatch := AttrBool false;
           input_inner_dtypes := None; output_inner_dtype := None |}).
Proof.
  intros Hout Hmod Hget.
  assert (Hpre : startswith path "scipy.special" = false).
  { destruct (startswith path "scipy.special") eqn:Hp; [|reflexivity].
    by apply scipy_special_has_module_path in Hp. }
  unfold resolve_implementation.
  destruct (unpack_last (split_dot path)) as [module_path name]. simpl in *.
  subst module_path. unfold call_np_getattr. rewrite Hget, Hout, Hpre. reflexivity.
Qed.
End LoweringFacts.

Section ScalarOpRuns.
Context `{E : Externals}.

(** Lines 44-50 for a bare name that numpy lacks. *)
Lemma resolve_numpy_missing (op : ScalarOp) (node : Apply) (kwargs : gmap string KwVal)
    (path : string) :
  (unpack_last (split_dot path)).1 = [] ->
  np_getattr (unpack_last (split_dot path)).2 = None ->
  resolve_implementation op node kwargs path
  = ([EvNumpyGetattr (unpack_last (split_dot path)).2],
     Raise (AttributeError "numpy" (unpack_last (split_dot path)).2)).
Proof.
  intros Hmod Hget. unfold resolve_implementation.
  destruct (unpack_last (split_dot path)) as [module_path name]. simpl in *.
  subst module_path. unfold call_np_getattr. rewrite Hget. reflexivity.
Qed.

(** Lines 44-77 when [wrap_cython_function] raises. *)
Lemma resolve_wrap_raises (op : ScalarOp) (node : Apply) (kwargs : gmap string KwVal)
    (path : string) (o : ScalarVariable) (cf : CythonFunc) (e : exn) :
  outputs node = [o] ->
  startswith path "scipy.special" = true ->
  cython_special_getattr (unpack_last (split_dot path)).2 = Some cf ->
  wrap_cython_function cf (var_dtype o) (var_dtype <$> inputs node) = Raise e ->
  resolve_implementation op node kwargs path
  = ([EvCythonSpecialGetattr (unpack_last (split_dot path)).2;
      EvWrapCythonFunction (var_dtype o) (var_dtype <$> inputs node)],
     Raise e).
Proof.
  intros Hout Hpre Hget Hwrap.
  pose proof (scipy_special_has_module_path _ Hpre) as Hmod.
  unfold resolve_implementation.
  destruct (unpack_last (split_dot path)) as [module_path name]. simpl in *.
  destruct module_path as [|m ms]; [congruence|].
  rewrite Hout, Hpre. simpl.
  unfold call_cython_special_getattr, call_wrap_cython_function.
  rewrite Hget. unfold mbind, M_bind. simpl.
  change (List.map (fun input => np_dtype (var_dtype input)) (inputs node))
    with (var_dtype <$> inputs node).
  unfold np_dtype. rewrite Hwrap. reflexivity.
Qed.

(** Every way lines 44-82 can end. *)
Lemma resolve_cases (op : ScalarOp) (node : Apply) (kwargs : gmap string KwVal)
    (path : string) :
  let name := (unpack_last (split_dot path)).2 in
  let m := resolve_implementation op node kwargs path in
  (exists f, (unpack_last (split_dot path)).1 = [] /\ np_getattr name = Some f
             /\ (exists o, outputs node = [o])
             /\ m = ([EvNumpyGetattr name],
                     Ok {| scalar_func_numba := f; pyx_skip_dispatch := AttrBool false;
                           input_inner_dtypes := None; output_inner_dtype := None |}))
  \/ ((unpack_last (split_dot path)).1 = [] /\ np_getattr name = None
      /\ m = ([EvNumpyGetattr name], Raise (AttributeError "numpy" name)))
  \/ (length (outputs node) <> 1 /\ bare_name_missing path = false
      /\ (m = ([], Raise (ValueError
                 "ScalarOps with more than one output are not supported"))
          \/ m = ([EvNumpyGetattr name],
                  Raise (ValueError
                    "ScalarOps with more than one output are not supported"))))
  \/ (exists o cf h,
        outputs node = [o] /\ startswith path "scipy.special" = true
        /\ cython_special_getattr name = Some cf
        /\ wrap_cython_function cf (var_dtype o) (var_dtype <$> inputs node) = Ok h
        /\ m = ([EvCythonSpecialGetattr name;
                 EvWrapCythonFunction (var_dtype o) (var_dtype <$> inputs node)],
                Ok {| scalar_func_numba := handle_callable h;
                      pyx_skip_dispatch := has_pyx_skip_dispatch h;
                      input_inner_dtypes := Some (numpy_arg_dtypes h);
                      output_inner_dtype := Some (numpy_output_dtype h) |}))
  \/ (exists o cf e,
        outputs node = [o] /\ startswith path "scipy.special" = true
        /\ cython_special_getattr name = Some cf
        /\ wrap_cython_function cf (var_dtype o) (var_dtype <$> inputs node) = Raise e
        /\ m = ([EvCythonSpecialGetattr name;
                 EvWrapCythonFunction (var_dtype o) (var_dtype <$> inputs node)],
                Raise e))
  \/ (exists o,
        outputs node = [o] /\ (unpack_last (split_dot path)).1 <> []
        /\ (startswith path "scipy.special" = true -> cython_special_getattr name = None)
        /\ m = ((if startswith path "scipy.special"
                 then [EvCythonSpecialGetattr name] else [])
                  ++ [EvGenerateFallbackImpl],
                Ok {| scalar_func_numba := generate_fallback_impl op node kwargs;
                      pyx_skip_dispatch := AttrBool false;
                      input_inner_dtypes := None; output_inner_dtype := None |})).
Proof.
  intros name m. subst name m.
  destruct (unpack_last (split_dot path)).1 as [|md ms] eqn:Hmod.
  - destruct (np_getattr (unpack_last (split_dot path)).2) as [f|] eqn:Hget.
    + destruct (outputs node) as [|o [|o' os]] eqn:Hout.
      * right; right; left. rewrite resolve_not_single_output by (rewrite Hout; simpl; lia).
        unfold bare_name_missing. destruct (unpack_last (split_dot path)); simpl in *.
        subst. rewrite Hget. repeat split; [simpl; lia | by right].
      * left. exists f. repeat split; eauto.
        exact (resolve_numpy op node kwargs path o f Hout Hmod Hget).
      * right; right; left. rewrite resolve_not_single_output by (rewrite Hout; simpl; lia).
        unfold bare_name_missing. destruct (unpack_last (split_dot path)); simpl in *.
        subst. rewrite Hget. repeat split; [simpl; lia | by right].
    + right; left. repeat split; try done. by apply resolve_numpy_missing.
  - destruct (outputs node) as [|o [|o' os]] eqn:Hout.
    + right; right; left. rewrite resolve_not_single_output by (rewrite Hout; simpl; lia).
      unfold bare_name_missing. destruct (unpack_last (split_dot path)); simpl in *.
      subst. repeat split; [simpl; lia | by left].
    + destruct (startswith path "scipy.special") eqn:Hpre.
      * destruct (cython_special_getattr (unpack_last (split_dot path)).2) as [cf|] eqn:Hget.
        -- destruct (wrap_cython_function cf (var_dtype o) (var_dtype <$> inputs node))
             as [h|e] eqn:Hwrap.
           ++ do 3 right; left. exists o, cf, h. repeat split; try done.
              by apply (resolve_bridge op node kwargs path o cf h).
           ++ do 4 right; left. exists o, cf, e. repeat split; try done.
              by apply (resolve_wrap_raises op node kwargs path o cf e).
        -- do 5 right. exists o. split; [done|]. split; [done|].
           split; [done|].
           rewrite (resolve_unresolved op node kwargs path o Hout);
             [by rewrite Hpre | by rewrite Hmod | done].
      * do 5 right. exists o. split; [done|]. split; [done|].
        split; [done|].
        rewrite (resolve_unresolved op node kwargs path o Hout);
          [by rewrite Hpre | by rewrite Hmod | congruence].
    + right; right; left. rewrite resolve_not_single_output by (rewrite Hout; simpl; lia).
      unfold bare_name_missing. destruct (unpack_last (split_dot path)); simpl in *.
      subst. repeat split; [simpl; lia | by left].
Qed.
End ScalarOpRuns.

Lemma filter_unique_name_events (p : Event -> bool) (vs : list ScalarVariable)
    (ns : list string) :
  (forall v n, p (EvUniqueName v n) = false) ->
  List.filter p (zip_with EvUniqueName vs ns) = [].
Proof.
  intros Hp. revert ns. induction vs as [|v vs IH]; intros [|n ns]; try reflexivity.
  cbn [zip_with List.filter]. rewrite Hp. apply IH.
Qed.

(** ** Multi-output operators *)

(** C2, as the code has it.  For an operator that carries a descriptor and
    a node with more than one output, [numba_funcify_ScalarOp] stops with an
    exception before any synthesis work: the log holds at most the numpy
    lookup of a bare name, no name is generated, no text compiled, nothing
    handed to the JIT.  The exception is the [ValueError] that names the
    restriction, unless the descriptor is a bare name that numpy lacks: the
    lookup of line 50 comes before the count of line 55, and its
    [AttributeError] is what is raised. *)
Theorem multi_output_fails_fast `{E : Externals} (op : ScalarOp) (node : Apply)
    (kwargs : gmap string KwVal) (spec : string * nat * nat) :
  nfunc_spec op = Some spec ->
  1 < length (outputs node) ->
  let m := numba_funcify_ScalarOp op node kwargs in
  let name := (unpack_last (split_dot spec.1.1)).2 in
  (exists e, outcome m = Raise e)
  /\ outcome m
     = Raise (if bare_name_missing spec.1.1
              then AttributeError "numpy" name
              else ValueError "ScalarOps with more than one output are not supported")
  /\ Forall (fun ev => is_synthesis ev = false) (log_of m)
  /\ (log_of m = [] \/ log_of m = [EvNumpyGetattr name]).
Proof.
  intros Hspec Hlen m name. subst m name.
  unfold numba_funcify_ScalarOp. rewrite Hspec.
  rewrite resolve_not_single_output by lia.
  rewrite bind_raise. unfold outcome, log_of. simpl.
  split; [eauto|]. split; [reflexivity|].
  destruct (removelast (split_dot spec.1.1)); simpl.
  - split; [repeat constructor | by right].
  - split; [constructor | by left].
Qed.

Lemma multi_output_fails_fast_witness :
  outcome (numba_funcify_ScalarOp op_expm1 node_two_outputs ∅)
  = Raise (ValueError "ScalarOps with more than one output are not supported")
  /\ log_of (numba_funcify_ScalarOp op_expm1 node_two_outputs ∅) = [].
Proof.
  pose proof (multi_output_fails_fast op_expm1 node_two_outputs ∅
                ("scipy.special.expm1", 1, 1) eq_refl) as H.
  destruct H as (_ & Hout & _ & _); [simpl; lia |].
  split; [exact Hout | reflexivity].
Defined.

(** With two outputs and a bare name that numpy lacks, the node is not
    rejected with the error that names the restriction: the lookup raises
    first. *)
Lemma multi_output_lookup_raises_first :
  nfunc_spec op_missing_numpy = Some ("no_such_ufunc", 1, 1)
  /\ 1 < length (outputs node_two_outputs)
  /\ numba_funcify_ScalarOp op_missing_numpy node_two_outputs ∅
     = ([EvNumpyGetattr "no_such_ufunc"], Raise (AttributeError "numpy" "no_such_ufunc"))
  /\ ~ exists msg,
         outcome (numba_funcify_ScalarOp op_missing_numpy node_two_outputs ∅)
         = Raise (ValueError msg).
Proof.
  assert (Hrun : numba_funcify_ScalarOp op_missing_numpy node_two_outputs ∅
                 = ([EvNumpyGetattr "no_such_ufunc"],
                    Raise (AttributeError "numpy" "no_such_ufunc")))
    by reflexivity.
  split; [reflexivity|]. split; [simpl; lia|]. split; [exact Hrun|].
  intros [msg Hmsg]. rewrite Hrun in Hmsg. discriminate Hmsg.
Qed.

(** ** Descriptors that do not resolve *)

(** C3, as the code has it.  Without a descriptor the result of
    [generate_fallback_impl] is returned, whatever the node.  With a
    namespaced descriptor whose routine is not found (a namespace other than
    [scipy.special], or a name the special-function library lacks) and a
    node with one output, nothing is raised: [generate_fallback_impl] is
    called once, its result is bound as [scalar_func_numba], and a wrapper
    that forwards to it is compiled and jitted. *)
Theorem unresolved_descriptor_falls_back `{E : Externals} (op : ScalarOp)
    (node : Apply) (kwargs : gmap string KwVal) :
  (nfunc_spec op = None ->
     numba_funcify_ScalarOp op node kwargs
     = ([EvGenerateFallbackImpl], Ok (Fallback (generate_fallback_impl op node kwargs))))
  /\ (forall spec o,
        nfunc_spec op = Some spec ->
        outputs node = [o] ->
        (unpack_last (split_dot spec.1.1)).1 <> [] ->
        (startswith spec.1.1 "scipy.special" = true ->
         cython_special_getattr (unpack_last (split_dot spec.1.1)).2 = None) ->
        let m := numba_funcify_ScalarOp op node kwargs in
        let fb := generate_fallback_impl op node kwargs in
        let names :=
          fresh_names
            (unique_name_generator [get_name_for_object fb; "scalar_func_numba"] "_")
            (inputs node) in
        exists opts f,
          outcome m = Ok (Jitted opts (Source f))
          /\ fn_globals f !! "scalar_func_numba" = Some (GImpl fb)
          /\ fn_src f = forward_src (get_name_for_object fb) (py_join ", " names) false
          /\ count_events is_fallback_call (log_of m) = 1).
Proof.
  split.
  - intros Hspec. unfold numba_funcify_ScalarOp. rewrite Hspec. reflexivity.
  - intros spec o Hspec Hout Hmod Hget m fb names. subst m.
    unfold numba_funcify_ScalarOp. rewrite Hspec.
    rewrite (resolve_unresolved op node kwargs _ o Hout Hmod Hget).
    rewrite bind_ok, synthesize_forward by reflexivity.
    unfold outcome, log_of. cbn [fst snd scalar_func_numba pyx_skip_dispatch].
    eexists _, _. split; [reflexivity|].
    cbn [fn_globals fn_src]. split; [apply lookup_insert_eq|].
    split; [reflexivity|].
    unfold count_events. rewrite !List.filter_app, filter_unique_name_events by done.
    destruct (startswith spec.1.1 "scipy.special"); reflexivity.
Qed.

Lemma unresolved_descriptor_falls_back_witness :
  (exists k, numba_funcify_ScalarOp op_plain node_two_outputs ∅
             = ([EvGenerateFallbackImpl], Ok (Fallback k)))
  /\ (exists opts f,
        outcome (numba_funcify_ScalarOp op_missing_special node_f32 ∅)
        = Ok (Jitted opts (Source f))
        /\ fn_globals f !! "scalar_func_numba" = Some (GImpl "fallback_impl")).
Proof.
  pose proof (unresolved_descriptor_falls_back op_plain node_two_outputs ∅) as [H1 _].
  pose proof (unresolved_descriptor_falls_back op_missing_special node_f32 ∅) as [_ H2].
  split.
  - eexists. apply H1. reflexivity.
  - destruct (H2 ("scipy.special.no_such_routine", 1, 1) (scalar_var 1 "out" float32))
      as (opts & f & Hk & Hg & _); try reflexivity.
    + discriminate.
    + exists opts, f. split; [exact Hk | exact Hg].
Defined.

(** With two outputs the same unresolvable descriptor raises. *)
Lemma unresolved_descriptor_multi_output_raises :
  nfunc_spec op_missing_special = Some ("scipy.special.no_such_routine", 1, 1)
  /\ @cython_special_getattr demo "no_such_routine" = None
  /\ length (outputs node_two_outputs) = 2
  /\ numba_funcify_ScalarOp op_missing_special node_two_outputs ∅
     = ([], Raise (ValueError "ScalarOps with more than one output are not supported"))
  /\ ~ exists k, outcome (numba_funcify_ScalarOp op_missing_special node_two_outputs ∅)
                 = Ok k.
Proof.
  assert (Hrun : numba_funcify_ScalarOp op_missing_special node_two_outputs ∅
                 = ([], Raise (ValueError
                                 "ScalarOps with more than one output are not supported")))
    by reflexivity.
  repeat split; try reflexivity.
  intros [k Hk]. rewrite Hrun in Hk. discriminate Hk.
Qed.

(** X18. An exception of [wrap_cython_function] is not caught: a routine
    that exists by name but has no implementation for the node's dtypes stops
    the lowering with that exception, and the generic fallback is not
    called. *)
Lemma wrap_failure_propagates `{E : Externals} (op : ScalarOp) (node : Apply)
    (kwargs : gmap string KwVal) (spec : string * nat * nat) (o : ScalarVariable)
    (cf : CythonFunc) (e : exn) :
  nfunc_spec op = Some spec ->
  outputs node = [o] ->
  startswith spec.1.1 "scipy.special" = true ->
  cython_special_getattr (unpack_last (split_dot spec.1.1)).2 = Some cf ->
  wrap_cython_function cf (var_dtype o) (var_dtype <$> inputs node) = Raise e ->
  outcome (numba_funcify_ScalarOp op node kwargs) = Raise e
  /\ count_events is_fallback_call (log_of (numba_funcify_ScalarOp op node kwargs)) = 0.
Proof.
  intros Hspec Hout Hpre Hget Hwrap.
  pose proof (scipy_special_has_module_path _ Hpre) as Hmod.
  unfold numba_funcify_ScalarOp, resolve_implementation. rewrite Hspec.
  destruct (unpack_last (split_dot spec.1.1)) as [module_path name]. simpl in *.
  destruct module_path as [|m ms]; [congruence|].
  rewrite Hout, Hpre. simpl.
  unfold call_cython_special_getattr, call_wrap_cython_function.
  rewrite Hget. unfold mbind, M_bind. simpl.
  change (List.map (fun input => np_dtype (var_dtype input)) (inputs node))
    with (var_dtype <$> inputs node).
  unfold np_dtype. rewrite Hwrap. split; reflexivity.
Qed.

Example wrap_failure_complex :
  numba_funcify_ScalarOp op_expm1 node_c128 ∅
  = ([EvCythonSpecialGetattr "expm1"; EvWrapCythonFunction complex128 [complex128]],
     Raise (NotImplementedError "no compatible signature")).
Proof. reflexivity. Qed.

(** ** Kernels that call through a function pointer are not cached *)

(** C5. A kernel that [numba_funcify_ScalarOp] compiles around a routine
    resolved by the special-function bridge is handed to the JIT exactly
    once, with [cache=False] passed explicitly; and whatever the descriptor,
    every kernel this function has jitted carries [cache=False]. *)
Theorem foreign_kernel_not_cached `{E : Externals} (op : ScalarOp) (node : Apply)
    (kwargs : gmap string KwVal) (spec : string * nat * nat) :
  nfunc_spec op = Some spec ->
  (forall o cf h,
      outputs node = [o] ->
      startswith spec.1.1 "scipy.special" = true ->
      cython_special_getattr (unpack_last (split_dot spec.1.1)).2 = Some cf ->
      wrap_cython_function cf (var_dtype o) (var_dtype <$> inputs node) = Ok h ->
      exists opts f,
        outcome (numba_funcify_ScalarOp op node kwargs) = Ok (Jitted opts (Source f))
        /\ njit_cache opts = Some false
        /\ List.filter is_njit_call (log_of (numba_funcify_ScalarOp op node kwargs))
           = [EvNumbaNjit (Some false)])
  /\ (forall opts target,
        outcome (numba_funcify_ScalarOp op node kwargs) = Ok (Jitted opts target) ->
        njit_cache opts = Some false).
Proof.
  intros Hspec. split.
  - intros o cf h Hout Hpre Hget Hwrap.
    unfold numba_funcify_ScalarOp. rewrite Hspec.
    rewrite (resolve_bridge op node kwargs _ o cf h Hout Hpre Hget Hwrap).
    rewrite bind_ok.
    rewrite (synthesize_casting node _ (numpy_arg_dtypes h) (numpy_output_dtype h))
      by reflexivity.
    unfold outcome, log_of. cbn [fst snd].
    eexists _, _. split; [reflexivity|]. split; [reflexivity|].
    rewrite !List.filter_app, filter_unique_name_events by done. reflexivity.
  - intros opts target. unfold numba_funcify_ScalarOp. rewrite Hspec.
    destruct (resolve_implementation op node kwargs spec.1.1) as [l [r|e]];
      [|rewrite bind_raise; discriminate].
    rewrite bind_ok. unfold outcome. cbn [snd].
    unfold synthesize_wrapper.
    destruct (input_inner_dtypes r) as [ins|], (output_inner_dtype r) as [out|];
      unfold mbind, M_bind; simpl; try discriminate; intros [= <- _]; reflexivity.
Qed.

Lemma foreign_kernel_not_cached_witness :
  exists opts f,
    outcome (numba_funcify_ScalarOp op_expm1 node_f32 ∅) = Ok (Jitted opts (Source f))
    /\ njit_cache opts = Some false.
Proof.
  pose proof (foreign_kernel_not_cached op_expm1 node_f32 ∅
                ("scipy.special.expm1", 1, 1) eq_refl) as [H _].
  destruct (H (scalar_var 1 "out" float32) "expm1"
              (demo_handle "expm1" true [float32]))
    as (opts & f & Hk & Hc & _); try reflexivity.
  exists opts, f. split; [exact Hk | exact Hc].
Defined.

(** The hand-written strategies do not pass [cache]. *)
Example add_kernel_cache_default :
  List.filter is_njit_call (log_of (numba_funcify_Add node3)) = [EvNumbaNjit None].
Proof. reflexivity. Qed.

(** ** Composite *)

(** C6. For a Composite, [numba_funcify_Composite] derives the signature
    from the Composite's own graph with [force_scalar], calls the sub-graph
    lowering once with [squeeze_output=True] and with [storage_map] removed
    from the keyword context (every other key is passed on unchanged), and
    hands the result to the JIT once with that signature. *)
Theorem composite_lowered_once `{E : Externals} (op : Composite) (node : Apply)
    (kwargs : gmap string KwVal) :
  kwargs !! "squeeze_output" = None ->
  let kw := <["squeeze_output" := KwBool true]> (delete "storage_map" kwargs) in
  let m := numba_funcify_Composite op node kwargs in
  m = ([EvCreateNumbaSignature true; EvNumbaFuncify kw; EvNumbaNjit None],
       Ok (Jitted
             {| njit_signature := Some (create_numba_signature (OfFgraph (fgraph op)) true);
                njit_fastmath := Some config_numba__fastmath;
                njit_cache := None |}
             (Lowered (numba_funcify_FunctionGraph (fgraph op) kw))))
  /\ count_events is_funcify_call (log_of m) = 1
  /\ count_events is_njit_call (log_of m) = 1
  /\ kw !! "squeeze_output" = Some (KwBool true)
  /\ kw !! "storage_map" = None
  /\ (forall k, k <> "squeeze_output" -> k <> "storage_map" -> kw !! k = kwargs !! k).
Proof.
  intros Hsq kw m.
  assert (Hm : m = ([EvCreateNumbaSignature true; EvNumbaFuncify kw; EvNumbaNjit None],
       Ok (Jitted
             {| njit_signature := Some (create_numba_signature (OfFgraph (fgraph op)) true);
                njit_fastmath := Some config_numba__fastmath;
                njit_cache := None |}
             (Lowered (numba_funcify_FunctionGraph (fgraph op) kw))))).
  { subst m kw. unfold numba_funcify_Composite, call_numba_funcify.
    rewrite lookup_delete_ne, Hsq by done. reflexivity. }
  split; [exact Hm|]. rewrite Hm.
  split; [reflexivity|]. split; [reflexivity|].
  subst kw. split; [apply lookup_insert_eq|].
  split; [rewrite lookup_insert_ne by done; apply lookup_delete_eq|].
  intros k Hk1 Hk2. rewrite lookup_insert_ne, lookup_delete_ne by done. reflexivity.
Qed.

Lemma composite_lowered_once_witness :
  let kwargs : gmap string KwVal :=
    {[ "storage_map" := KwStorageMap [0; 1]; "fgraph_name" := KwStr "outer" ]} in
  let kw := <["squeeze_output" := KwBool true]> (delete "storage_map" kwargs) in
  kwargs !! "squeeze_output" = None
  /\ numba_funcify_Composite composite_add_mul node3 kwargs
     = ([EvCreateNumbaSignature true; EvNumbaFuncify kw; EvNumbaNjit None],
        Ok (Jitted
              {| njit_signature := Some ([int64; int64], [int64], true);
                 njit_fastmath := Some true;
                 njit_cache := None |}
              (Lowered "numba_funcified_fgraph")))
  /\ kw !! "storage_map" = None
  /\ kw !! "fgraph_name" = Some (KwStr "outer").
Proof.
  intros kwargs kw.
  pose proof (composite_lowered_once composite_add_mul node3 kwargs) as H.
  destruct H as (Hm & _ & _ & _ & Hst & Hother); [reflexivity|].
  split; [reflexivity|]. split; [exact Hm|]. split; [exact Hst|].
  rewrite Hother by done. reflexivity.
Defined.

(** A keyword context that already carries [squeeze_output] makes the call
    itself fail. *)
Example composite_duplicate_keyword :
  outcome (numba_funcify_Composite composite_add_mul node3
             {[ "squeeze_output" := KwBool false ]})
  = Raise (TypeError "got multiple values for keyword argument 'squeeze_output'").
Proof. reflexivity. Qed.

(** ** The environment of a wrapper *)

Section EnvFacts.
Context `{E : Externals}.

Lemma dict_update_notin (base : gmap string (GlobalVal Callable)) (items : Env)
    (k : string) :
  k ∉ items.*1 -> dict_update base items !! k = base !! k.
Proof.
  revert base. induction items as [|[k' v'] items IH]; intros base Hk; [reflexivity|].
  simpl in *. apply not_elem_of_cons in Hk as [Hne Hk].
  unfold dict_update in *. simpl. rewrite IH by done. by rewrite lookup_insert_ne.
Qed.

Lemma dict_update_in (base : gmap string (GlobalVal Callable)) (items : Env)
    (k : string) (v : GlobalVal Callable) :
  NoDup items.*1 -> (k, v) ∈ items -> dict_update base items !! k = Some v.
Proof.
  revert base. induction items as [|[k' v'] items IH]; intros base Hnd Hin.
  - by apply elem_of_nil in Hin.
  - simpl in *. apply NoDup_cons in Hnd as [Hk' Hnd].
    apply elem_of_cons in Hin as [[= -> ->] | Hin].
    + change (dict_update (<[k':=v']> base) items !! k' = Some v').
      rewrite dict_update_notin by done. apply lookup_insert_eq.
    + change (dict_update (<[k':=v']> base) items !! k = Some v). by apply IH.
Qed.

Lemma fresh_names_length (g : NameGen) (vs : list ScalarVariable) :
  length (fresh_names g vs) = length vs.
Proof.
  revert g. induction vs as [|v vs IH]; intros g; simpl; [reflexivity|].
  destruct (unique_names g v true) as [n g']. simpl. by rewrite IH.
Qed.

Lemma tmp_names_lookup (ins : list dtype) (i : nat) (d : dtype) :
  ins !! i = Some d ->
  input_tmp_dtype_names ins !! i = Some ("inp_tmp_dtype_" +:+ pretty i, d).
Proof.
  intros Hi. unfold input_tmp_dtype_names. by rewrite list_lookup_imap, Hi.
Qed.

Lemma tmp_names_fst (ins : list dtype) :
  (input_tmp_dtype_names ins).*1
  = (fun i => "inp_tmp_dtype_" +:+ pretty i) <$> seq 0 (length ins).
Proof.
  unfold input_tmp_dtype_names. rewrite fmap_imap.
  rewrite <- (imap_seq_0 ins (fun i => "inp_tmp_dtype_" +:+ pretty i)).
  reflexivity.
Qed.

Lemma tmp_names_NoDup (ins : list dtype) : NoDup (input_tmp_dtype_names ins).*1.
Proof.
  rewrite tmp_names_fst. apply NoDup_fmap_2; [|apply NoDup_seq].
  intros i j Hij. apply (inj (String.append "inp_tmp_dtype_")) in Hij.
  by apply (inj pretty) in Hij.
Qed.

Lemma tmp_name_not_reserved (ins : list dtype) (k : string) :
  k ∈ ["scalar_func_numba"; "direct_cast"; "output_dtype"; "np"] ->
  k ∉ (input_tmp_dtype_names ins).*1.
Proof.
  intros Hk. rewrite tmp_names_fst. intros Hin.
  apply list_elem_of_fmap in Hin as (i & -> & _).
  repeat (apply elem_of_cons in Hk as [Hk | Hk]; [discriminate Hk|]).
  by apply elem_of_nil in Hk.
Qed.

(** The environment of the casting wrapper binds the implementation, the
    cast, the output working precision and one working precision per
    argument position. *)
Lemma casting_env_lookup (impl : Callable) (ins : list dtype) (out : dtype) :
  let env :=
    dict_update module_globals
      ([("scalar_func_numba", GImpl impl); ("direct_cast", GDirectCast);
        ("output_dtype", GDtype out)]
         ++ List.map (fun kv => (kv.1, GDtype kv.2)) (input_tmp_dtype_names ins)) in
  env !! "scalar_func_numba" = Some (GImpl impl)
  /\ env !! "direct_cast" = Some GDirectCast
  /\ env !! "output_dtype" = Some (GDtype out)
  /\ (forall i d, ins !! i = Some d ->
        env !! ("inp_tmp_dtype_" +:+ pretty i) = Some (GDtype d)).
Proof.
  intros env.
  assert (Hkeys : (List.map (fun kv : string * dtype => (kv.1, @GDtype Callable kv.2))
                     (input_tmp_dtype_names ins)).*1
                  = (input_tmp_dtype_names ins).*1).
  { generalize (input_tmp_dtype_names ins). intros l.
    induction l as [|[a b] l IH]; [reflexivity|].
    simpl. f_equal. exact IH. }
  assert (Hnd : NoDup ([("scalar_func_numba", GImpl impl); ("direct_cast", GDirectCast);
        ("output_dtype", GDtype out)]
         ++ List.map (fun kv => (kv.1, GDtype kv.2)) (input_tmp_dtype_names ins)).*1).
  { rewrite fmap_app, Hkeys. simpl.
    repeat (apply NoDup_cons; split).
    - intros Hin. apply elem_of_cons in Hin as [? | Hin]; [discriminate|].
      apply elem_of_cons in Hin as [? | Hin]; [discriminate|].
      revert Hin. apply tmp_name_not_reserved. set_solver.
    - intros Hin. apply elem_of_cons in Hin as [? | Hin]; [discriminate|].
      revert Hin. apply tmp_name_not_reserved. set_solver.
    - apply tmp_name_not_reserved. set_solver.
    - apply tmp_names_NoDup. }
  subst env. repeat split.
  - apply dict_update_in; [done | set_solver].
  - apply dict_update_in; [done | set_solver].
  - apply dict_update_in; [done | set_solver].
  - intros i d Hi. apply dict_update_in; [done|].
    apply elem_of_app; right.
    apply list_elem_of_fmap. exists ("inp_tmp_dtype_" +:+ pretty i, d).
    split; [reflexivity|]. apply list_elem_of_lookup. exists i.
    by apply tmp_names_lookup.
Qed.
End EnvFacts.

(** ** The forwarded call *)

(** What lines 44-82 can leave behind when they do not raise: either the
    bridge resolved the routine, or no working precisions are declared and
    no dispatch-control argument is wanted. *)
Lemma resolve_ok_inv `{E : Externals} (op : ScalarOp) (node : Apply)
    (kwargs : gmap string KwVal) (path : string) (r : Resolved) :
  outcome (resolve_implementation op node kwargs path) = Ok r ->
  (exists o cf h,
      outputs node = [o]
      /\ startswith path "scipy.special" = true
      /\ cython_special_getattr (unpack_last (split_dot path)).2 = Some cf
      /\ wrap_cython_function cf (var_dtype o) (var_dtype <$> inputs node) = Ok h
      /\ r = {| scalar_func_numba := handle_callable h;
                pyx_skip_dispatch := has_pyx_skip_dispatch h;
                input_inner_dtypes := Some (numpy_arg_dtypes h);
                output_inner_dtype := Some (numpy_output_dtype h) |})
  \/ (input_inner_dtypes r = None /\ output_inner_dtype r = None
      /\ pyx_skip_dispatch r = AttrBool false
      /\ (startswith path "scipy.special" = false
          \/ cython_special_getattr (unpack_last (split_dot path)).2 = None)).
Proof.
  destruct (outputs node) as [|o [|o' os]] eqn:Hout.
  - rewrite resolve_not_single_output by (rewrite Hout; simpl; lia). discriminate.
  - destruct (startswith path "scipy.special") eqn:Hpre.
    + destruct (cython_special_getattr (unpack_last (split_dot path)).2) as [cf|] eqn:Hget.
      * destruct (wrap_cython_function cf (var_dtype o) (var_dtype <$> inputs node))
          as [h|e] eqn:Hwrap.
        -- rewrite (resolve_bridge op node kwargs path o cf h) by done.
           intros [= <-]. left. exists o, cf, h. done.
        -- pose proof (scipy_special_has_module_path _ Hpre) as Hmod.
           unfold resolve_implementation.
           destruct (unpack_last (split_dot path)) as [module_path name]. simpl in *.
           destruct module_path as [|m ms]; [congruence|].
           rewrite Hout, Hpre. simpl.
           unfold call_cython_special_getattr, call_wrap_cython_function.
           rewrite Hget. unfold mbind, M_bind. simpl.
           change (List.map (fun input => np_dtype (var_dtype input)) (inputs node))
             with (var_dtype <$> inputs node).
           unfold np_dtype. rewrite Hwrap. discriminate.
      * rewrite (resolve_unresolved op node kwargs path o Hout);
          [ intros [= <-]; right; repeat split; by right
          | by apply scipy_special_has_module_path | done ].
    + destruct (unpack_last (split_dot path)).1 as [|m ms] eqn:Hmod.
      * destruct (np_getattr (unpack_last (split_dot path)).2) as [f|] eqn:Hget.
        -- rewrite (resolve_numpy op node kwargs path o f) by done.
           intros [= <-]. right. repeat split; by left.
        -- unfold resolve_implementation.
           destruct (unpack_last (split_dot path)) as [module_path name]. simpl in *.
           subst module_path. unfold call_np_getattr. rewrite Hget. discriminate.
      * rewrite (resolve_unresolved op node kwargs path o Hout);
          [ intros [= <-]; right; repeat split; by left
          | by rewrite Hmod | congruence ].
  - rewrite resolve_not_single_output by (rewrite Hout; simpl; lia). discriminate.
Qed.

(** The names the casting wrapper reserves (lines 121-124): the function's
    name, [scalar_func_numba], and the keys of [global_env] in the order they
    were bound. *)
Lemma casting_reserved `{E : Externals} (fn : string) (impl : Callable)
    (ins : list dtype) (out : dtype) :
  [fn; "scalar_func_numba"]
    ++ List.map fst
         ([("scalar_func_numba", GImpl impl); ("direct_cast", GDirectCast);
           ("output_dtype", GDtype out)]
            ++ List.map (fun kv : string * dtype => (kv.1, @GDtype Callable kv.2))
                 (input_tmp_dtype_names ins))
  = [fn; "scalar_func_numba"; "scalar_func_numba"; "direct_cast"; "output_dtype"]
      ++ ((fun i => "inp_tmp_dtype_" +:+ pretty i) <$> seq 0 (length ins)).
Proof.
  rewrite List.map_app, <- tmp_names_fst. cbn [List.map fst app]. do 5 f_equal.
  generalize (input_tmp_dtype_names ins). intros l.
  induction l as [|[a b] l IH]; [reflexivity|]. cbn. f_equal. exact IH.
Qed.

(** C4. Every kernel [numba_funcify_ScalarOp] synthesizes is compiled from a
    definition whose parameters are the names the generator gave to the
    node's inputs, in order, and whose one call of [scalar_func_numba]
    forwards them positionally.  Without a foreign routine
    ([scalar_func_numba] is bound to the numpy function or to the generic
    fallback) the parameters are forwarded as they are and nothing is
    appended.  With a routine resolved by the bridge ([scalar_func_numba] is
    bound to its handle) the parameters are forwarded under their casts, and
    [np.intc(1)] is appended as the one trailing argument exactly when the
    attribute [has_pyx_skip_dispatch] of the handle, read and not called,
    counts as true: for a plain boolean that is the flag, for a method it is
    always, whatever the method would answer. *)
Theorem call_forwards_parameters `{E : Externals} (op : ScalarOp) (node : Apply)
    (kwargs : gmap string KwVal) (spec : string * nat * nat) (k : Kernel) :
  nfunc_spec op = Some spec ->
  outcome (numba_funcify_ScalarOp op node kwargs) = Ok k ->
  let path := spec.1.1 in
  let name := (unpack_last (split_dot path)).2 in
  exists opts f impl,
    k = Jitted opts (Source f)
    /\ fn_globals f !! "scalar_func_numba" = Some (GImpl impl)
    /\ fn_name f = get_name_for_object impl
    /\ ((((unpack_last (split_dot path)).1 = [] /\ np_getattr name = Some impl
          \/ (unpack_last (split_dot path)).1 <> []
             /\ (startswith path "scipy.special" = true ->
                 cython_special_getattr name = None)
             /\ impl = generate_fallback_impl op node kwargs)
         /\ let names :=
              fresh_names
                (unique_name_generator [fn_name f; "scalar_func_numba"] "_")
                (inputs node) in
            fn_src f
            = unparse_def tail12
                {| def_name := fn_name f;
                   def_args := names;
                   def_return := Call "scalar_func_numba" (Name <$> names) |})
        \/ (exists o cf h,
              outputs node = [o]
              /\ startswith path "scipy.special" = true
              /\ cython_special_getattr name = Some cf
              /\ wrap_cython_function cf (var_dtype o) (var_dtype <$> inputs node) = Ok h
              /\ impl = handle_callable h
              /\ let tmp := (fun i => "inp_tmp_dtype_" +:+ pretty i)
                              <$> seq 0 (length (numpy_arg_dtypes h)) in
                 let names :=
                   fresh_names
                     (unique_name_generator
                        ([fn_name f; "scalar_func_numba"; "scalar_func_numba";
                          "direct_cast"; "output_dtype"] ++ tmp) "_")
                     (inputs node) in
                 let forwarded := zip_with cast_arg names tmp in
                 let appended :=
                   if truth (has_pyx_skip_dispatch h) then [NpIntc 1] else [] in
                 (length (inputs node) <= length (numpy_arg_dtypes h) ->
                  length forwarded = length (inputs node))
                 /\ (truth (has_pyx_skip_dispatch h) = true <-> appended = [NpIntc 1])
                 /\ (forall b, has_pyx_skip_dispatch h = AttrBool b ->
                       appended = if b then [NpIntc 1] else [])
                 /\ (forall b, has_pyx_skip_dispatch h = AttrMethod b ->
                       appended = [NpIntc 1])
                 /\ (forwarded <> [] \/ truth (has_pyx_skip_dispatch h) = false ->
                     fn_src f
                     = unparse_def tail12
                         {| def_name := fn_name f;
                            def_args := names;
                            def_return :=
                              Call "direct_cast"
                                [Call "scalar_func_numba" (forwarded ++ appended);
                                 Name "output_dtype"] |}))).
Proof.
  intros Hspec Hk path name. subst path name.
  unfold numba_funcify_ScalarOp in Hk. rewrite Hspec in Hk.
  destruct (resolve_cases op node kwargs spec.1.1)
    as [(impl & Hmod & Hget & (o & Hout) & Hc) | [(_ & _ & Hc) | [(_ & _ & Hc)
       | [(o & cf & h & Hout & Hpre & Hget & Hwrap & Hc) | [(o & cf & e & _ & _ & _ & _ & Hc)
       | (o & Hout & Hmod & Hget & Hc)]]]]].
  - rewrite Hc, bind_ok, synthesize_forward in Hk by reflexivity.
    unfold outcome in Hk. cbn [fst snd scalar_func_numba pyx_skip_dispatch truth] in Hk.
    injection Hk as <-. eexists _, _, impl. split; [reflexivity|].
    cbn [fn_globals fn_name fn_src]. split; [apply lookup_insert_eq|].
    split; [reflexivity|]. left. split; [by left|].
    cbv zeta. rewrite forward_src_unparse by (by right).
    unfold forward_def. cbn [dispatch_args]. by rewrite app_nil_r.
  - rewrite Hc, bind_raise in Hk. discriminate Hk.
  - destruct Hc as [Hc | Hc]; rewrite Hc, bind_raise in Hk; discriminate Hk.
  - rewrite Hc, bind_ok in Hk.
    rewrite (synthesize_casting node _ (numpy_arg_dtypes h) (numpy_output_dtype h)) in Hk
      by reflexivity.
    unfold outcome in Hk. cbn [fst snd scalar_func_numba pyx_skip_dispatch] in Hk.
    injection Hk as <-. eexists _, _, (handle_callable h). split; [reflexivity|].
    cbn [fn_globals fn_name fn_src]. split; [apply casting_env_lookup|].
    split; [reflexivity|]. right. exists o, cf, h.
    do 5 (split; [done|]). cbv zeta.
    assert (Hres :
      get_name_for_object (handle_callable h) :: "scalar_func_numba"
        :: "scalar_func_numba" :: "direct_cast" :: "output_dtype"
        :: List.map fst
             (List.map (fun kv : string * dtype => (kv.1, @GDtype Callable kv.2))
                (input_tmp_dtype_names (numpy_arg_dtypes h)))
      = [get_name_for_object (handle_callable h); "scalar_func_numba";
         "scalar_func_numba"; "direct_cast"; "output_dtype"]
          ++ ((fun i => "inp_tmp_dtype_" +:+ pretty i)
                <$> seq 0 (length (numpy_arg_dtypes h))))
      by apply (casting_reserved _ (handle_callable h) _ (numpy_output_dtype h)).
    rewrite Hres.
    change (List.map fst (input_tmp_dtype_names (numpy_arg_dtypes h)))
      with (input_tmp_dtype_names (numpy_arg_dtypes h)).*1.
    rewrite tmp_names_fst.
    split; [|split; [|split; [|split]]].
    + intros Hle. rewrite length_zip_with, fresh_names_length, length_fmap, length_seq. lia.
    + destruct (truth (has_pyx_skip_dispatch h)); split; done.
    + intros b ->. reflexivity.
    + intros b ->. reflexivity.
    + intros Hne. apply casting_src_unparse.
      destruct Hne as [Hne | Hfl]; [left | by right].
      split; intros Hnil; apply Hne; rewrite Hnil; [reflexivity | apply zip_with_nil_r].
  - rewrite Hc, bind_raise in Hk. discriminate Hk.
  - rewrite Hc, bind_ok, synthesize_forward in Hk by reflexivity.
    unfold outcome in Hk. cbn [fst snd scalar_func_numba pyx_skip_dispatch truth] in Hk.
    injection Hk as <-. eexists _, _, (generate_fallback_impl op node kwargs).
    split; [reflexivity|].
    cbn [fn_globals fn_name fn_src]. split; [apply lookup_insert_eq|].
    split; [reflexivity|]. left. split; [by right|].
    cbv zeta. rewrite forward_src_unparse by (by right).
    unfold forward_def. cbn [dispatch_args]. by rewrite app_nil_r.
Qed.

(** The theorem at a routine that is entered without the dispatch-control
    argument, behind a handle whose [has_pyx_skip_dispatch] is a method: the
    method would answer [False], and [np.intc(1)] is appended all the
    same. *)
Lemma call_forwards_parameters_witness :
  @cython_special_getattr demo "bare_entry" = Some "bare_entry"
  /\ @wrap_cython_function demo "bare_entry" float32 [float32]
     = Ok (demo_handle "bare_entry" false [float32])
  /\ requires_dispatch (has_pyx_skip_dispatch (demo_handle "bare_entry" false [float32]))
     = false
  /\ exists opts f,
       outcome (numba_funcify_ScalarOp op_bare_entry node_f32 ∅)
       = Ok (Jitted opts (Source f))
       /\ fn_globals f !! "scalar_func_numba" = Some (GImpl "bare_entry")
       /\ fn_src f
          = unparse_def tail12
              {| def_name := "bare_entry"; def_args := ["x"];
                 def_return :=
                   Call "direct_cast"
                     [Call "scalar_func_numba"
                        [Call "direct_cast" [Name "x"; Name "inp_tmp_dtype_0"];
                         NpIntc 1];
                      Name "output_dtype"] |}.
Proof.
  do 3 (split; [reflexivity|]).
  assert (Hk : exists k, outcome (numba_funcify_ScalarOp op_bare_entry node_f32 ∅) = Ok k)
    by (eexists; reflexivity).
  destruct Hk as [k Hk].
  destruct (call_forwards_parameters (E := demo) op_bare_entry node_f32 ∅
              ("scipy.special.bare_entry", 1, 1) k eq_refl Hk)
    as (opts & f & impl & -> & Hg & Hn & [[[[Hmod _] | (_ & Hnone & _)] _] | Hbridge]).
  - discriminate Hmod.
  - discriminate (Hnone eq_refl).
  - destruct Hbridge as (o & cf & h & Hout & _ & Hget & Hwrap & -> & Hrest).
    injection Hout as <-. injection Hget as <-.
    assert (Hh : h = demo_handle "bare_entry" false [float32]).
    { change (Ok (demo_handle "bare_entry" false [float32]) = Ok h) in Hwrap.
      by injection Hwrap. }
    subst h. cbv zeta in Hrest. destruct Hrest as (_ & _ & _ & _ & Hsrc).
    exists opts, f. split; [exact Hk|]. split; [exact Hg|].
    rewrite Hsrc.
    + rewrite Hn. reflexivity.
    + left. rewrite Hn. discriminate.
Defined.

(** Read as Python, that kernel passes one argument more than the routine
    of the concrete environment takes, and the call fails. *)
Example bare_entry_wrapper_run :
  exists opts f,
    outcome (numba_funcify_ScalarOp op_bare_entry node_f32 ∅) = Ok (Jitted opts (Source f))
    /\ @call_impl _ demo_runtime "bare_entry" [PFloat 0%float; PInt 1] = None
    /\ call_def (fn_globals f)
         {| def_name := "bare_entry"; def_args := ["x"];
            def_return :=
              Call "direct_cast"
                [Call "scalar_func_numba"
                   [Call "direct_cast" [Name "x"; Name "inp_tmp_dtype_0"]; NpIntc 1];
                 Name "output_dtype"] |}
         [PFloat 0%float]
       = None.
Proof. eexists _, _. split; [reflexivity|]. split; [reflexivity|]. vm_compute. reflexivity. Qed.

(** The two wrappers of the concrete environment, as text and as
    definitions. *)
Example expm1_wrapper_text :
  exists opts f,
    outcome (numba_funcify_ScalarOp op_expm1 node_f32 ∅) = Ok (Jitted opts (Source f))
    /\ fn_src f
       = unparse_def tail12
           {| def_name := "expm1"; def_args := ["x"];
              def_return :=
                Call "direct_cast"
                  [Call "scalar_func_numba"
                     [Call "direct_cast" [Name "x"; Name "inp_tmp_dtype_0"]; NpIntc 1];
                   Name "output_dtype"] |}.
Proof. eexists _, _. split; reflexivity. Qed.

Example exp_wrapper_text :
  exists opts f,
    outcome (numba_funcify_ScalarOp op_exp node_f32 ∅) = Ok (Jitted opts (Source f))
    /\ fn_src f
       = unparse_def tail12
           {| def_name := "exp"; def_args := ["x"];
              def_return := Call "scalar_func_numba" [Name "x"] |}.
Proof. eexists _, _. split; reflexivity. Qed.

(** ** Meaning of the emitted wrappers *)

Section EvalFacts.
Context {C : Type} `{R : Runtime C}.
Variable globals : gmap string (GlobalVal C).
Variable locals : list (string * value).

Lemma eval_call (f : string) (args : list expr) :
  eval globals locals (Call f args)
  = '(os, t) ← eval_args globals locals args;
    match list_find (fun kv => kv.1 = f) locals with
    | Some _ => None
    | None =>
        g ← globals !! f;
        o ← apply_global g os;
        Some (o, t ++ [(f, os)])
    end.
Proof. reflexivity. Qed.


Lemma as_values_OVal (vs : list value) : as_values (OVal <$> vs) = Some vs.
Proof.
  unfold as_values. apply mapM_Some. apply Forall2_fmap_l.
  apply Forall_Forall2_diag, Forall_forall. done.
Qed.
End EvalFacts.

Section BindingFacts.
Context {C : Type} `{R : Runtime C}.
Variable globals : gmap string (GlobalVal C).

(** A parameter evaluates to the argument in its position. *)
Lemma lookup_parameter (names : list string) (args : list value) (i : nat)
    (n : string) (v : value) :
  NoDup names ->
  names !! i = Some n ->
  args !! i = Some v ->
  lookup_name globals (zip names args) n = Some (OVal v).
Proof.
  intros Hnd Hn Hv. unfold lookup_name.
  assert (Hfind : list_find (fun kv : string * value => kv.1 = n) (zip names args)
                  = Some (i, (n, v))).
  { apply list_find_Some. split; [|split; [reflexivity|]].
    - by apply lookup_zip_Some.
    - intros j [n' v'] Hj Hlt Heq. simpl in Heq. subst n'.
      apply lookup_zip_Some in Hj as [Ha Hb].
      pose proof (NoDup_lookup _ _ _ _ Hnd Ha Hn). lia. }
  by rewrite Hfind.
Qed.

(** A name that is not a parameter is looked up in the globals. *)
Lemma find_non_parameter (names : list string) (args : list value) (n : string) :
  n ∉ names ->
  list_find (fun kv : string * value => kv.1 = n) (zip names args) = None.
Proof.
  intros Hn. apply list_find_None. apply Forall_forall. intros [n' v'] Hin Heq.
  simpl in Heq. subst n'. apply Hn.
  apply list_elem_of_lookup in Hin as [j Hj].
  apply lookup_zip_Some in Hj as [Ha Hb].
  by apply list_elem_of_lookup_2 in Ha.
Qed.


Lemma parameters_bound (names : list string) (args : list value) :
  NoDup names ->
  length names = length args ->
  Forall2 (fun n v => lookup_name globals (zip names args) n = Some (OVal v))
          names args.
Proof.
  intros Hnd Hlen. apply Forall2_same_length_lookup. split; [exact Hlen|].
  intros i n v Hn Hv. by apply (lookup_parameter names args i).
Qed.
End BindingFacts.

Section WrapperFacts.
Context {C : Type} `{R : Runtime C}.
Variable globals : gmap string (GlobalVal C).
Variable locals : list (string * value).



Lemma eval_chain (op : string) (n : string) (ns : list string) (x : value)
    (xs : list value) (r : value) :
  lookup_name globals locals n = Some (OVal x) ->
  Forall2 (fun n v => lookup_name globals locals n = Some (OVal v)) ns xs ->
  fold_binop op x xs = Some r ->
  eval globals locals (chain op n ns) = Some (OVal r, []).
Proof.
  intros Hn. revert xs r. unfold chain, fold_binop.
  induction ns as [|m ns IH] using rev_ind; intros xs r Hall Hr.
  - apply Forall2_nil_inv_l in Hall as ->. simpl in *.
    rewrite Hn. simpl. congruence.
  - apply Forall2_app_inv_l in Hall as (xs' & ys & Hxs & Hy & ->).
    apply Forall2_cons_inv_l in Hy as (y & ys' & Hm & Hnil & ->).
    apply Forall2_nil_inv_l in Hnil as ->.
    rewrite foldl_snoc in Hr. rewrite foldl_snoc.
    match type of Hr with
    | (?m ≫= _) = _ => destruct m as [a|] eqn:Ha; [|discriminate Hr]
    end.
    simpl in Hr. cbn [eval]. rewrite (IH xs' a Hxs Ha). simpl.
    rewrite Hm. simpl. rewrite Hr. reflexivity.
Qed.


End WrapperFacts.

(** ** The wrapper around a bridged routine *)





(** The [expm1] wrapper of the concrete environment, run on a [float32]
    argument: one cast in, the dispatch-control value, one call, one cast
    out. *)
Example expm1_wrapper_run :
  exists opts f,
    outcome (numba_funcify_ScalarOp op_expm1 node_f32 ∅) = Ok (Jitted opts (Source f))
    /\ call_def (fn_globals f)
         {| def_name := "expm1"; def_args := ["x"];
            def_return :=
              Call "direct_cast"
                [Call "scalar_func_numba"
                   [Call "direct_cast" [Name "x"; Name "inp_tmp_dtype_0"]; NpIntc 1];
                 Name "output_dtype"] |}
         [PFloat (-1)%float]
       = Some (PFloat (series_exp (-1) - 1)%float,
               [("direct_cast", [OVal (PFloat (-1)%float); ODtype float64]);
                ("np.intc", []);
                ("scalar_func_numba", [OVal (PFloat (-1)%float); OVal (PInt 1)]);
                ("direct_cast", [OVal (PFloat (series_exp (-1) - 1)%float);
                                 ODtype float64])]).
Proof. eexists _, _. split; [reflexivity|]. vm_compute. reflexivity. Qed.

(** ** Add and Mul *)

Section NaryFacts.
Context `{E : Externals}.

Lemma binary_to_nary_func_run (ins : list ScalarVariable) (name op : string) :
  let names := fresh_names (unique_name_generator ["binary_op_name"] "_") ins in
  let src := NL +:+ "def " +:+ name +:+ "(" +:+ py_join ", " names +:+ "):" +:+ NL
                +:+ "    return " +:+ py_join op names +:+ NL +:+ tail4 in
  binary_to_nary_func ins name op
  = ([EvUniqueNameGenerator ["binary_op_name"]]
       ++ zip_with EvUniqueName ins names ++ [EvCompileFunctionSrc src name],
     Ok {| fn_src := src; fn_name := name; fn_globals := module_globals |}).
Proof.
  unfold binary_to_nary_func, mbind, M_bind. simpl. reflexivity.
Qed.

Lemma nary_src_unparse (name op n : string) (ns : list string) :
  NL +:+ "def " +:+ name +:+ "(" +:+ py_join ", " (n :: ns) +:+ "):" +:+ NL
     +:+ "    return " +:+ py_join op (n :: ns) +:+ NL +:+ tail4
  = unparse_def tail4 (nary_def name op n ns).
Proof.
  unfold unparse_def, nary_def. cbn [def_name def_args def_return].
  by rewrite unparse_chain.
Qed.

(** The kernel of an n-ary strategy: one text, compiled once, jitted once,
    computing the left-to-right fold. *)
Lemma nary_kernel `{R : Runtime Callable} (node : Apply) (name op : string)
    (kernel : M Kernel) :
  kernel = (signature ← call_create_numba_signature (OfNode node) true;
            nary_add_fn ← binary_to_nary_func (inputs node) name op;
            numba_njit (Some signature) (Some config_numba__fastmath) None
              (Source nary_add_fn)) ->
  inputs node <> [] ->
  exists opts f n ns,
    outcome kernel = Ok (Jitted opts (Source f))
    /\ fresh_names (unique_name_generator ["binary_op_name"] "_") (inputs node) = n :: ns
    /\ fn_src f
       = unparse_def tail4
           {| def_name := name; def_args := n :: ns;
              def_return := foldl (fun acc m => BinOp acc op (Name m)) (Name n) ns |}
    /\ (forall (x : value) (xs : list value) (r : value),
          NoDup (n :: ns) ->
          length (x :: xs) = length (inputs node) ->
          foldl (fun acc v => a ← acc; py_binop op a v) (Some x) xs = Some r ->
          call_def (fn_globals f)
            {| def_name := name; def_args := n :: ns;
               def_return := foldl (fun acc m => BinOp acc op (Name m)) (Name n) ns |}
            (x :: xs)
          = Some (r, [])).
Proof.
  intros -> Hne.
  pose (names := fresh_names (unique_name_generator ["binary_op_name"] "_") (inputs node)).
  assert (Hlen : length names = length (inputs node)) by apply fresh_names_length.
  destruct names as [|n ns] eqn:Hnames.
  { destruct (inputs node); [done | discriminate]. }
  unfold call_create_numba_signature. rewrite binary_to_nary_func_run.
  unfold mbind, M_bind, outcome. simpl.
  eexists _, _, n, ns. split; [reflexivity|]. split; [exact Hnames|].
  cbn [fn_src fn_globals]. fold names. rewrite Hnames. split.
  - apply nary_src_unparse.
  - intros x xs r Hnd Hargs Hr.
    unfold call_def. cbn [def_args def_return].
    rewrite decide_True by (simpl in *; lia).
    pose proof (parameters_bound module_globals (n :: ns) (x :: xs) Hnd
                  ltac:(simpl in *; lia)) as Hall.
    apply Forall2_cons in Hall as [Hn Hns].
    pose proof (eval_chain module_globals _ op n ns x xs r Hn Hns Hr) as He.
    unfold chain in He. rewrite He. reflexivity.
Qed.
End NaryFacts.

(** C8. For a node with one or more inputs, the Add (Mul) strategy emits
    [def add(n1, ..., nk): return n1+...+nk] (with [*] for Mul), a chain
    that nests to the left; called on one value per input it returns the
    left-to-right fold of [+] ([*]) over them and calls nothing else.  On
    inputs (2, 3, 4) Add returns 9 and Mul returns 24. *)
Theorem add_mul_fold_left `{E : Externals} `{R : Runtime Callable} (node : Apply) :
  inputs node <> [] ->
  (exists opts f n ns,
      outcome (numba_funcify_Add node) = Ok (Jitted opts (Source f))
      /\ fresh_names (unique_name_generator ["binary_op_name"] "_") (inputs node) = n :: ns
      /\ fn_src f
         = unparse_def tail4
             {| def_name := "add"; def_args := n :: ns;
                def_return := foldl (fun acc m => BinOp acc "+" (Name m)) (Name n) ns |}
      /\ (forall (x : value) (xs : list value) (r : value),
            NoDup (n :: ns) ->
            length (x :: xs) = length (inputs node) ->
            foldl (fun acc v => a ← acc; py_binop "+" a v) (Some x) xs = Some r ->
            call_def (fn_globals f)
              {| def_name := "add"; def_args := n :: ns;
                 def_return := foldl (fun acc m => BinOp acc "+" (Name m)) (Name n) ns |}
              (x :: xs)
            = Some (r, [])))
  /\ (exists opts f n ns,
      outcome (numba_funcify_Mul node) = Ok (Jitted opts (Source f))
      /\ fresh_names (unique_name_generator ["binary_op_name"] "_") (inputs node) = n :: ns
      /\ fn_src f
         = unparse_def tail4
             {| def_name := "mul"; def_args := n :: ns;
                def_return := foldl (fun acc m => BinOp acc "*" (Name m)) (Name n) ns |}
      /\ (forall (x : value) (xs : list value) (r : value),
            NoDup (n :: ns) ->
            length (x :: xs) = length (inputs node) ->
            foldl (fun acc v => a ← acc; py_binop "*" a v) (Some x) xs = Some r ->
            call_def (fn_globals f)
              {| def_name := "mul"; def_args := n :: ns;
                 def_return := foldl (fun acc m => BinOp acc "*" (Name m)) (Name n) ns |}
              (x :: xs)
            = Some (r, [])))
  /\ (exists opts f,
      outcome (@numba_funcify_Add demo node3) = Ok (Jitted opts (Source f))
      /\ fn_src f
         = unparse_def tail4
             {| def_name := "add"; def_args := ["x"; "y"; "z"];
                def_return := BinOp (BinOp (Name "x") "+" (Name "y")) "+" (Name "z") |}
      /\ call_def (fn_globals f)
           {| def_name := "add"; def_args := ["x"; "y"; "z"];
              def_return := BinOp (BinOp (Name "x") "+" (Name "y")) "+" (Name "z") |}
           [PInt 2; PInt 3; PInt 4]
         = Some (PInt 9, []))
  /\ (exists opts f,
      outcome (@numba_funcify_Mul demo node3) = Ok (Jitted opts (Source f))
      /\ fn_src f
         = unparse_def tail4
             {| def_name := "mul"; def_args := ["x"; "y"; "z"];
                def_return := BinOp (BinOp (Name "x") "*" (Name "y")) "*" (Name "z") |}
      /\ call_def (fn_globals f)
           {| def_name := "mul"; def_args := ["x"; "y"; "z"];
              def_return := BinOp (BinOp (Name "x") "*" (Name "y")) "*" (Name "z") |}
           [PInt 2; PInt 3; PInt 4]
         = Some (PInt 24, [])).
Proof.
  intros Hne. split; [|split; [|split]].
  - by apply (nary_kernel node "add" "+").
  - by apply (nary_kernel node "mul" "*").
  - eexists _, _. split; [reflexivity|]. split; [reflexivity|]. vm_compute. reflexivity.
  - eexists _, _. split; [reflexivity|]. split; [reflexivity|]. vm_compute. reflexivity.
Qed.

Lemma add_mul_fold_left_witness :
  inputs node3 <> []
  /\ exists opts f n ns,
       outcome (numba_funcify_Add node3) = Ok (Jitted opts (Source f))
       /\ n :: ns = ["x"; "y"; "z"]
       /\ call_def (fn_globals f)
            {| def_name := "add"; def_args := n :: ns;
               def_return := foldl (fun acc m => BinOp acc "+" (Name m)) (Name n) ns |}
            [PInt 2; PInt 3; PInt 4]
          = Some (PInt 9, []).
Proof.
  assert (Hne : inputs node3 <> []) by discriminate.
  split; [exact Hne|].
  destruct (add_mul_fold_left (E := demo) (R := demo_runtime) node3 Hne)
    as [(opts & f & n & ns & Hk & Hnames & _ & Hrun) _].
  exists opts, f, n, ns. split; [exact Hk|]. split; [symmetry; exact Hnames|].
  apply Hrun; [|reflexivity|reflexivity].
  rewrite <- Hnames. vm_compute.
  repeat (apply NoDup_cons; split; [by (intros Hin; repeat
            (apply elem_of_cons in Hin as [Hin|Hin]; [discriminate Hin|]);
            apply elem_of_nil in Hin)|]).
  apply NoDup_nil. done.
Defined.

(** ** The modelled name generator *)

Lemma first_unused_fresh (used : list string) (base sep : string) :
  first_unused used base sep ∉ used.
Proof.
  unfold first_unused. case_decide as Hbase; [|exact Hbase].
  destruct (list_find _ _) as [[i k]|] eqn:Hfind.
  - apply list_find_Some in Hfind as (_ & Hk & _). exact Hk.
  - exfalso. apply list_find_None in Hfind. rewrite Forall_forall in Hfind.
    set (cands := (fun k : nat => base +:+ sep +:+ pretty k) <$> seq 1 (S (length used))).
    assert (Hnd : NoDup cands).
    { apply NoDup_fmap_2; [|apply NoDup_seq].
      intros a b Hab. apply (inj (String.append base)) in Hab.
      apply (inj (String.append sep)) in Hab. by apply (inj pretty) in Hab. }
    assert (Hsub : forall x, x ∈ cands -> x ∈ used).
    { intros x Hx. apply list_elem_of_fmap in Hx as (k & -> & Hk).
      destruct (decide (base +:+ sep +:+ pretty k ∈ used)) as [Hin|Hnin]; [exact Hin|].
      exfalso. by apply (Hfind k Hk). }
    pose proof (submseteq_length _ _ (NoDup_submseteq _ _ Hnd Hsub)) as Hle.
    subst cands. rewrite length_fmap, length_seq in Hle. lia.
Qed.

(** With [force_unique] the generator of the concrete environment gives
    pairwise distinct names, none of them reserved or already used. *)
Lemma spec_generator_contract (st : NameScope) (vs : list ScalarVariable) :
  NoDup (@fresh_names demo st vs)
  /\ (forall n, n ∈ @fresh_names demo st vs -> n ∉ ns_used st).
Proof.
  revert st. induction vs as [|v vs IH]; intros st.
  - split; [constructor | intros n Hn; by apply elem_of_nil in Hn].
  - cbn [fresh_names unique_names demo spec_unique_names].
    set (n := first_unused (ns_used st) (var_name v) (ns_sep st)).
    destruct (IH {| ns_used := n :: ns_used st; ns_sep := ns_sep st;
                    ns_assigned := (var_id v, n) :: ns_assigned st |}) as [Hnd Hfresh].
    cbn [ns_used] in Hfresh. split.
    + apply NoDup_cons. split; [|exact Hnd].
      intros Hin. apply (Hfresh n Hin). by left.
    + intros m Hm. apply elem_of_cons in Hm as [-> | Hm].
      * apply first_unused_fresh.
      * intros Hused. apply (Hfresh m Hm). by right.
Qed.

(** In the concrete environment the Add kernel of any node with at least one
    input returns the left-to-right sum of its arguments: the distinctness of
    the parameter names is the generator's doing. *)
Lemma demo_add_returns_sum (node : Apply) (x : pyval) (xs : list pyval) (r : pyval) :
  inputs node <> [] ->
  length (x :: xs) = length (inputs node) ->
  foldl (fun acc v => a ← acc; py_binop "+" a v) (Some x) xs = Some r ->
  exists opts f d,
    outcome (@numba_funcify_Add demo node) = Ok (Jitted opts (Source f))
    /\ fn_src f = unparse_def tail4 d
    /\ call_def (fn_globals f) d (x :: xs) = Some (r, []).
Proof.
  intros Hne Hlen Hr.
  destruct (nary_kernel (E := demo) (R := demo_runtime) node "add" "+"
              (numba_funcify_Add node) eq_refl Hne)
    as (opts & f & n & ns & Hk & Hnames & Hsrc & Hrun).
  eexists opts, f, _. split; [exact Hk|]. split; [exact Hsrc|].
  apply Hrun; [|exact Hlen|exact Hr].
  rewrite <- Hnames. apply spec_generator_contract.
Qed.

(** A bare name that numpy lacks is not a soft failure either: the lookup
    raises. *)
Example missing_numpy_name_raises :
  numba_funcify_ScalarOp op_missing_numpy node_f32 ∅
  = ([EvNumpyGetattr "no_such_ufunc"], Raise (AttributeError "numpy" "no_such_ufunc")).
Proof. reflexivity. Qed.

(* ===================================================================== *)
(** * Further properties of the two files                                *)
(* ===================================================================== *)

(** ** XlogX and XlogY0: implementation, C template, gradient *)

(** X1. [XlogX.st_impl] is [XlogY0.st_impl] on the diagonal: at [x == 0.0]
    (also [-0.0]) it returns [0.0] and does not call [log]; elsewhere it
    returns [x * log(x)] after one call of [log]. *)
Theorem XlogX_is_diagonal_of_XlogY0 `{L : Libm} (x : float) :
  XlogX_st_impl x = XlogY0_st_impl x x
  /\ (PrimFloat.eqb x 0%float = true -> XlogX_st_impl x = (0%float, []))
  /\ (PrimFloat.eqb x 0%float = false ->
      XlogX_st_impl x = ((x * np_log x)%float, [CallLog x])).
Proof.
  unfold XlogX_st_impl, XlogY0_st_impl.
  repeat split; intros ->; reflexivity.
Qed.

Lemma XlogX_is_diagonal_of_XlogY0_witness :
  @XlogX_st_impl series_libm (-0)%float = (0%float, [])
  /\ @XlogX_st_impl series_libm 2%float
     = ((2 * @np_log series_libm 2)%float, [CallLog 2%float]).
Proof.
  pose proof (@XlogX_is_diagonal_of_XlogY0 series_libm (-0)%float) as (_ & H0 & _).
  pose proof (@XlogX_is_diagonal_of_XlogY0 series_libm 2%float) as (_ & _ & H2).
  split; [apply H0 | apply H2]; reflexivity.
Defined.

Lemma xlog_template_unparse (z x y : string) :
  xlog_template z x y = unparse_c_assign z (xlog_rhs x y).
Proof.
  unfold xlog_template, unparse_c_assign, xlog_rhs. cbn [unparse_c].
  rewrite !string_app_assoc. reflexivity.
Qed.

(** X2. [XlogY0.c_code] returns code exactly when it is given two input
    names and one output name and the node's first input is [float32] or
    [float64]; the type of the second input is never looked at.  The code is
    the assignment [z = x == 0.0 ? 0.0 : x * log(y);]. *)
Theorem XlogY0_c_code_succeeds_iff (node : Apply) (c_inputs c_outputs : list string)
    (code : string) :
  XlogY0_c_code node c_inputs c_outputs = Return code
  <-> exists x y z v rest,
        c_inputs = [x; y] /\ c_outputs = [z]
        /\ inputs node = v :: rest
        /\ (var_dtype v = float32 \/ var_dtype v = float64)
        /\ code = unparse_c_assign z
                    (CCond (CEq (CVar x) CZero) CZero (CMul (CVar x) (CLog (CVar y)))).
Proof.
  unfold XlogY0_c_code, first_input_is_float. split.
  - destruct c_inputs as [|x [|y [|? ?]]]; try discriminate.
    destruct c_outputs as [|z [|? ?]]; try discriminate.
    destruct (inputs node) as [|v rest]; try discriminate.
    case_bool_decide as Hd; [|discriminate]. intros [= <-].
    exists x, y, z, v, rest. repeat split; try reflexivity.
    + apply elem_of_cons in Hd as [Hd|Hd]; [by left|].
      apply elem_of_cons in Hd as [Hd|Hd]; [by right|]. by apply elem_of_nil in Hd.
    + apply xlog_template_unparse.
  - intros (x & y & z & v & rest & -> & -> & Hin & Hd & ->). rewrite Hin.
    rewrite bool_decide_true; [by rewrite xlog_template_unparse|].
    destruct Hd as [-> | ->]; repeat constructor.
Qed.

(** X3. [XlogY0.c_code] fails in this order: a wrong number of input names
    is the [ValueError] of the unpacking, then a wrong number of output
    names likewise, then a node without inputs is an [IndexError], and only
    then a first input that is not a float is [NotImplementedError]. *)
Theorem XlogY0_c_code_errors (node : Apply) (c_inputs c_outputs : list string) :
  (length c_inputs <> 2 ->
     XlogY0_c_code node c_inputs c_outputs = Raised (unpack_error 2 (length c_inputs)))
  /\ (length c_inputs = 2 -> length c_outputs <> 1 ->
     XlogY0_c_code node c_inputs c_outputs = Raised (unpack_error 1 (length c_outputs)))
  /\ (length c_inputs = 2 -> length c_outputs = 1 -> inputs node = [] ->
     XlogY0_c_code node c_inputs c_outputs
     = Raised (IndexError "list index out of range"))
  /\ (forall v rest,
        length c_inputs = 2 -> length c_outputs = 1 -> inputs node = v :: rest ->
        var_dtype v <> float32 -> var_dtype v <> float64 ->
        XlogY0_c_code node c_inputs c_outputs
        = Raised (Builtin (NotImplementedError "only floatingpoint is implemented"))).
Proof.
  unfold XlogY0_c_code, first_input_is_float. repeat split.
  - intros Hl. destruct c_inputs as [|x [|y [|? ?]]]; try reflexivity. done.
  - intros Hi Ho. destruct c_inputs as [|x [|y [|? ?]]]; try discriminate.
    destruct c_outputs as [|z [|? ?]]; try reflexivity. done.
  - intros Hi Ho Hn. destruct c_inputs as [|x [|y [|? ?]]]; try discriminate.
    destruct c_outputs as [|z [|? ?]]; try discriminate. by rewrite Hn.
  - intros v rest Hi Ho Hn H32 H64.
    destruct c_inputs as [|x [|y [|? ?]]]; try discriminate.
    destruct c_outputs as [|z [|? ?]]; try discriminate. rewrite Hn.
    rewrite bool_decide_false; [reflexivity|].
    intros Hd. apply elem_of_cons in Hd as [Hd|Hd]; [done|].
    apply elem_of_cons in Hd as [Hd|Hd]; [done|]. by apply elem_of_nil in Hd.
Qed.

Lemma XlogY0_c_code_succeeds_iff_witness :
  exists code, XlogY0_c_code float_then_int_node ["a"; "b"] ["out"] = Return code.
Proof.
  eexists. apply XlogY0_c_code_succeeds_iff.
  exists "a", "b", "out", (scalar_var 0 "x" float64), [scalar_var 1 "y" int64].
  repeat split; try reflexivity. by right.
Defined.

Lemma XlogY0_c_code_errors_witness :
  XlogY0_c_code int_then_float_node ["a"] ["out"]
  = Raised (Builtin (ValueError "not enough values to unpack (expected 2, got 1)"))
  /\ XlogY0_c_code int_then_float_node ["a"; "b"] ["o1"; "o2"]
     = Raised (Builtin (ValueError "too many values to unpack (expected 1)"))
  /\ XlogY0_c_code {| inputs := []; outputs := [] |} ["a"; "b"] ["out"]
     = Raised (IndexError "list index out of range")
  /\ XlogY0_c_code int_then_float_node ["a"; "b"] ["out"]
     = Raised (Builtin (NotImplementedError "only floatingpoint is implemented")).
Proof.
  pose proof (XlogY0_c_code_errors int_then_float_node ["a"] ["out"]) as (H1 & _).
  pose proof (XlogY0_c_code_errors int_then_float_node ["a"; "b"] ["o1"; "o2"])
    as (_ & H2 & _).
  pose proof (XlogY0_c_code_errors {| inputs := []; outputs := [] |} ["a"; "b"] ["out"])
    as (_ & _ & H3 & _).
  pose proof (XlogY0_c_code_errors int_then_float_node ["a"; "b"] ["out"])
    as (_ & _ & _ & H4).
  split; [apply H1; discriminate|].
  split; [apply H2; [reflexivity | discriminate]|].
  split; [apply H3; reflexivity|].
  apply (H4 (scalar_var 0 "x" int64) [scalar_var 1 "y" float64]);
    try reflexivity; discriminate.
Defined.

Lemma eval_xlog_rhs `{L : Libm} (env : gmap string float) (x y : string)
    (xv yv : float) :
  env !! x = Some xv ->
  env !! y = Some yv ->
  eval_c env (xlog_rhs x y) = Some (XlogY0_st_impl xv yv).
Proof.
  intros Hx Hy. unfold xlog_rhs, XlogY0_st_impl. cbn [eval_c].
  rewrite !Hx, Hy. cbn. destruct (PrimFloat.eqb xv 0) eqn:Hz; reflexivity.
Qed.

(** X4. The C code agrees with the Python implementation on doubles:
    whenever [XlogY0.c_code] ([XlogX.c_code]) returns code, it is the text of
    an assignment to the output variable whose right-hand side evaluates to
    the value [st_impl] returns, with the same calls of [log]: none when the
    first operand is zero. *)
Theorem c_code_agrees_with_st_impl `{L : Libm} (node : Apply) (x y z code : string) :
  (XlogY0_c_code node [x; y] [z] = Return code ->
     exists rhs,
       code = unparse_c_assign z rhs
       /\ forall env xv yv,
            env !! x = Some xv -> env !! y = Some yv ->
            eval_c env rhs = Some (XlogY0_st_impl xv yv))
  /\ (XlogX_c_code node [x] [z] = Return code ->
     exists rhs,
       code = unparse_c_assign z rhs
       /\ forall env xv,
            env !! x = Some xv ->
            eval_c env rhs = Some (XlogX_st_impl xv)).
Proof.
  split.
  - unfold XlogY0_c_code. destruct (first_input_is_float node) as [[|]|e];
      try discriminate. intros [= <-].
    exists (xlog_rhs x y). split; [apply xlog_template_unparse|].
    intros env xv yv Hx Hy. by apply eval_xlog_rhs.
  - unfold XlogX_c_code. destruct (first_input_is_float node) as [[|]|e];
      try discriminate. intros [= <-].
    exists (xlog_rhs x x). split; [apply xlog_template_unparse|].
    intros env xv Hx. rewrite (eval_xlog_rhs env x x xv xv Hx Hx). reflexivity.
Qed.

Lemma c_code_agrees_with_st_impl_witness :
  exists code rhs,
    XlogY0_c_code float_then_int_node ["a"; "b"] ["out"] = Return code
    /\ code = unparse_c_assign "out" rhs
    /\ @eval_c series_libm {[ "a" := 0%float; "b" := (-1)%float ]} rhs
       = Some (0%float, []).
Proof.
  assert (Hc : exists code,
             XlogY0_c_code float_then_int_node ["a"; "b"] ["out"] = Return code)
    by (eexists; reflexivity).
  destruct Hc as [code Hc].
  destruct (@c_code_agrees_with_st_impl series_libm float_then_int_node
              "a" "b" "out" code) as [H _].
  destruct (H Hc) as (rhs & Hcode & Hrun).
  exists code, rhs. split; [exact Hc|]. split; [exact Hcode|].
  rewrite (Hrun {[ "a" := 0%float; "b" := (-1)%float ]} 0%float (-1)%float);
    reflexivity.
Defined.

(** ** Gradients *)

Lemma derivative_x_ln_x (x : R) :
  (0 < x)%R -> derivable_pt_lim (fun t => t * ln t)%R x (1 + ln x)%R.
Proof.
  intros Hx.
  pose proof (derivable_pt_lim_mult id ln x 1 (/ x)
                (derivable_pt_lim_id x) (derivable_pt_lim_ln x Hx)) as H.
  unfold mult_fct, id in H.
  replace (1 + ln x)%R with (1 * ln x + x * / x)%R; [exact H|].
  rewrite Rinv_r; [ring | lra].
Qed.

(** X5. [XlogX.grad], given one input [x] and one output gradient [gz],
    returns one expression, and for [x > 0] it denotes [gz] times the
    derivative of [t * ln t] at [x]; any other number of inputs or gradients
    is the [ValueError] of the unpacking. *)
Theorem XlogX_grad_is_derivative (env : string -> R) (x gz : sexpr) :
  (0 < denote env x)%R ->
  exists g d,
    XlogX_grad [x] [gz] = Return [g]
    /\ derivable_pt_lim (fun t => t * ln t)%R (denote env x) d
    /\ denote env g = (denote env gz * d)%R.
Proof.
  intros Hx. eexists _, (1 + ln (denote env x))%R.
  split; [reflexivity|]. split; [by apply derivative_x_ln_x | reflexivity].
Qed.

Lemma XlogX_grad_is_derivative_witness :
  exists g d,
    XlogX_grad [SVar "x"] [SVar "gz"] = Return [g]
    /\ derivable_pt_lim (fun t => t * ln t)%R 1%R d
    /\ denote (fun n => if String.eqb n "x" then 1%R else 2%R) g = (2 * d)%R.
Proof.
  destruct (XlogX_grad_is_derivative
              (fun n => if String.eqb n "x" then 1%R else 2%R) (SVar "x") (SVar "gz"))
    as (g & d & Hg & Hd & Hv).
  - simpl. lra.
  - exists g, d. split; [exact Hg|]. split; [exact Hd | exact Hv].
Defined.

Lemma derivative_x_ln_y_in_x (x y : R) :
  derivable_pt_lim (fun t => t * ln y)%R x (ln y).
Proof.
  pose proof (derivable_pt_lim_mult id (fct_cte (ln y)) x 1 0
                (derivable_pt_lim_id x) (derivable_pt_lim_const (ln y) x)) as H.
  unfold mult_fct, id, fct_cte in H.
  assert (E : (1 * ln y + x * 0 = ln y)%R) by ring.
  rewrite E in H. exact H.
Qed.

Lemma derivative_x_ln_y_in_y (x y : R) :
  (0 < y)%R -> derivable_pt_lim (fun t => x * ln t)%R y (x / y)%R.
Proof.
  intros Hy.
  pose proof (derivable_pt_lim_mult (fct_cte x) ln y 0 (/ y)
                (derivable_pt_lim_const x y) (derivable_pt_lim_ln y Hy)) as H.
  unfold mult_fct, fct_cte in H.
  replace (x / y)%R with (0 * ln y + x * / y)%R by (unfold Rdiv; ring). exact H.
Qed.

(** X6. [XlogY0.grad], given inputs [x], [y] and one output gradient [gz],
    returns two expressions in the order of the inputs; for [y > 0] the
    first denotes [gz] times the partial derivative of [x * ln y] in [x] and
    the second [gz] times its partial derivative in [y]. *)
Theorem XlogY0_grad_is_gradient (env : string -> R) (x y gz : sexpr) :
  (0 < denote env y)%R ->
  exists gx gy dx dy,
    XlogY0_grad [x; y] [gz] = Return [gx; gy]
    /\ derivable_pt_lim (fun t => t * ln (denote env y))%R (denote env x) dx
    /\ derivable_pt_lim (fun t => denote env x * ln t)%R (denote env y) dy
    /\ denote env gx = (denote env gz * dx)%R
    /\ denote env gy = (denote env gz * dy)%R.
Proof.
  intros Hy.
  eexists _, _, (ln (denote env y)), (denote env x / denote env y)%R.
  split; [reflexivity|].
  split; [apply derivative_x_ln_y_in_x|].
  split; [by apply derivative_x_ln_y_in_y|].
  split; [reflexivity|]. cbn [denote]. unfold Rdiv. ring.
Qed.

Lemma XlogY0_grad_is_gradient_witness :
  exists gx gy dx dy,
    XlogY0_grad [SVar "x"; SVar "y"] [SVar "gz"] = Return [gx; gy]
    /\ derivable_pt_lim (fun t => t * ln 2)%R 3%R dx
    /\ derivable_pt_lim (fun t => 3 * ln t)%R 2%R dy.
Proof.
  destruct (XlogY0_grad_is_gradient
              (fun n => if String.eqb n "x" then 3%R else 2%R)
              (SVar "x") (SVar "y") (SVar "gz"))
    as (gx & gy & dx & dy & Hg & Hdx & Hdy & _).
  - simpl. lra.
  - exists gx, gy, dx, dy. split; [exact Hg|]. split; [exact Hdx | exact Hdy].
Defined.

(** X7. Both [grad] methods raise the [ValueError] of the unpacking when
    the number of inputs is not the operator's arity, before looking at the
    gradients, and when the number of output gradients is not one. *)
Theorem grad_arity_errors (g_inputs grads : list sexpr) :
  (length g_inputs <> 1 ->
     XlogX_grad g_inputs grads = Raised (unpack_error 1 (length g_inputs)))
  /\ (length g_inputs = 1 -> length grads <> 1 ->
     XlogX_grad g_inputs grads = Raised (unpack_error 1 (length grads)))
  /\ (length g_inputs <> 2 ->
     XlogY0_grad g_inputs grads = Raised (unpack_error 2 (length g_inputs)))
  /\ (length g_inputs = 2 -> length grads <> 1 ->
     XlogY0_grad g_inputs grads = Raised (unpack_error 1 (length grads))).
Proof.
  unfold XlogX_grad, XlogY0_grad. repeat split.
  - intros Hl. destruct g_inputs as [|x [|? ?]]; try reflexivity. done.
  - intros Hi Hg. destruct g_inputs as [|x [|? ?]]; try discriminate.
    destruct grads as [|gz [|? ?]]; try reflexivity. done.
  - intros Hl. destruct g_inputs as [|x [|y [|? ?]]]; try reflexivity. done.
  - intros Hi Hg. destruct g_inputs as [|x [|y [|? ?]]]; try discriminate.
    destruct grads as [|gz [|? ?]]; try reflexivity. done.
Qed.

Lemma grad_arity_errors_witness :
  XlogX_grad [SVar "x"; SVar "y"] []
  = Raised (Builtin (ValueError "too many values to unpack (expected 1)"))
  /\ XlogY0_grad [SVar "x"; SVar "y"] []
     = Raised (Builtin (ValueError "not enough values to unpack (expected 1, got 0)")).
Proof.
  pose proof (grad_arity_errors [SVar "x"; SVar "y"] []) as (H1 & _ & _ & H4).
  split; [apply H1; discriminate | apply H4; [reflexivity | discriminate]].
Defined.

(** ** Clip on integers and on floats *)

(** X8. On integers with a lower bound not above the upper bound, [clip]
    returns a value between the bounds, leaves a value already between them
    unchanged, and clipping its result again changes nothing. *)
Theorem clip_Z_within_bounds (ox om oM : operand Z) :
  (to_scalar om <= to_scalar oM)%Z ->
  let r := clip to_scalar ox om oM in
  (to_scalar om <= r <= to_scalar oM)%Z
  /\ ((to_scalar om <= to_scalar ox <= to_scalar oM)%Z -> r = to_scalar ox)
  /\ clip to_scalar (Scalar r) om oM = r.
Proof.
  intros Hb r. subst r. unfold clip, py_lt, py_gt, Z_PyOrd.
  cbn [to_scalar].
  destruct (Z.ltb_spec (to_scalar ox) (to_scalar om)) as [Hlt|Hge].
  - rewrite Z.ltb_irrefl.
    destruct (Z.gtb_spec (to_scalar om) (to_scalar oM)); [lia|].
    repeat split; lia.
  - destruct (Z.gtb_spec (to_scalar ox) (to_scalar oM)) as [Hgt|Hle].
    + destruct (Z.ltb_spec (to_scalar oM) (to_scalar om)); [lia|].
      destruct (Z.gtb_spec (to_scalar oM) (to_scalar oM)); [lia|].
      repeat split; lia.
    + destruct (Z.ltb_spec (to_scalar ox) (to_scalar om)); [lia|].
      destruct (Z.gtb_spec (to_scalar ox) (to_scalar oM)); [lia|].
      repeat split; lia.
Qed.

Lemma clip_Z_within_bounds_witness :
  (0 <= clip to_scalar (Array0d 7%Z) (Scalar 0%Z) (Scalar 3%Z) <= 3)%Z
  /\ clip to_scalar (Scalar (clip to_scalar (Array0d 7%Z) (Scalar 0%Z) (Scalar 3%Z)))
       (Scalar 0%Z) (Scalar 3%Z)
     = clip to_scalar (Array0d 7%Z) (Scalar 0%Z) (Scalar 3%Z).
Proof.
  destruct (clip_Z_within_bounds (Array0d 7%Z) (Scalar 0%Z) (Scalar 3%Z))
    as (Hr & _ & Hi); [simpl; lia|].
  split; [exact Hr | exact Hi].
Defined.

Lemma SFcompare_refl_not_nan (s : spec_float) :
  s <> S754_nan -> SFcompare s s = Some Eq.
Proof.
  destruct s as [sg | sg | | sg m e]; simpl; try done.
  - by destruct sg.
  - intros _. rewrite Z.compare_refl, Pos.compare_cont_refl. by destruct sg.
Qed.

Lemma float_is_nan_spec (x : float) :
  PrimFloat.is_nan x = true -> Prim2SF x = S754_nan.
Proof.
  unfold PrimFloat.is_nan. rewrite FloatAxioms.eqb_spec. unfold SFeqb. intros Hn.
  destruct (Prim2SF x) as [sg | sg | | sg m e] eqn:Hs; [| |reflexivity|];
    rewrite SFcompare_refl_not_nan in Hn by discriminate; discriminate.
Qed.

Lemma float_nan_not_below (x y : float) :
  PrimFloat.is_nan x = true ->
  PrimFloat.ltb x y = false /\ PrimFloat.ltb y x = false.
Proof.
  intros Hn. apply float_is_nan_spec in Hn.
  rewrite !ltb_spec. unfold SFltb. rewrite Hn. split; [reflexivity|].
  by destruct (Prim2SF y).
Qed.

(** X9. On floats a NaN passes through [clip]: a NaN value is returned
    whatever the bounds are, and bounds that are both NaN never clip. *)
Theorem clip_float_nan (ox om oM : operand float) :
  (PrimFloat.is_nan (to_scalar ox) = true ->
     clip to_scalar ox om oM = to_scalar ox)
  /\ (PrimFloat.is_nan (to_scalar om) = true ->
      PrimFloat.is_nan (to_scalar oM) = true ->
     clip to_scalar ox om oM = to_scalar ox).
Proof.
  unfold clip, py_lt, py_gt, float_PyOrd. split.
  - intros Hx. destruct (float_nan_not_below (to_scalar ox) (to_scalar om) Hx) as [-> _].
    destruct (float_nan_not_below (to_scalar ox) (to_scalar oM) Hx) as [_ ->].
    reflexivity.
  - intros Hm HM.
    destruct (float_nan_not_below (to_scalar om) (to_scalar ox) Hm) as [_ ->].
    destruct (float_nan_not_below (to_scalar oM) (to_scalar ox) HM) as [-> _].
    reflexivity.
Qed.

Lemma clip_float_nan_witness :
  clip to_scalar (Scalar nan) (Scalar 0%float) (Scalar 1%float) = nan
  /\ clip to_scalar (Scalar 5%float) (Scalar nan) (Array0d nan) = 5%float.
Proof.
  pose proof (clip_float_nan (Scalar nan) (Scalar 0%float) (Scalar 1%float)) as [H1 _].
  pose proof (clip_float_nan (Scalar 5%float) (Scalar nan) (Array0d nan)) as [_ H2].
  split; [apply H1 | apply H2]; reflexivity.
Defined.

(** ** How [numba_funcify_ScalarOp] fails, and what it consults *)


Lemma unique_name_events_synthesis (vs : list ScalarVariable) (ns : list string) :
  Forall (fun ev => is_synthesis ev = true) (zip_with EvUniqueName vs ns).
Proof.
  revert ns. induction vs as [|v vs IH]; intros [|n ns]; try constructor; [done | apply IH].
Qed.

Lemma count_events_app (p : Event -> bool) (l1 l2 : list Event) :
  count_events p (l1 ++ l2) = count_events p l1 + count_events p l2.
Proof. unfold count_events. by rewrite List.filter_app, length_app. Qed.

Lemma count_events_synthesis (p : Event -> bool) (l : list Event) :
  (forall ev, p ev = true -> is_synthesis ev = false) ->
  Forall (fun ev => is_synthesis ev = true) l ->
  count_events p l = 0.
Proof.
  intros Hp Hl. unfold count_events. induction Hl as [|ev l Hev Hl IH]; [reflexivity|].
  simpl. destruct (p ev) eqn:Hpev; [|exact IH].
  apply Hp in Hpev. congruence.
Qed.

(** A run of [numba_funcify_ScalarOp] on an operator with a descriptor:
    either lines 44-82 raise and that is the end, or they resolve and lines
    84-154 follow and log only synthesis work. *)
Lemma scalar_op_run `{E : Externals} (op : ScalarOp) (node : Apply)
    (kwargs : gmap string KwVal) (spec : string * nat * nat) :
  nfunc_spec op = Some spec ->
  let m := numba_funcify_ScalarOp op node kwargs in
  let r := resolve_implementation op node kwargs spec.1.1 in
  (exists e, outcome r = Raise e /\ m = (log_of r, Raise e))
  \/ (exists res l2 opts f,
        outcome r = Ok res
        /\ m = (log_of r ++ l2, Ok (Jitted opts (Source f)))
        /\ Forall (fun ev => is_synthesis ev = true) l2
        /\ njit_cache opts = Some false).
Proof.
  intros Hspec m r. subst m r. unfold numba_funcify_ScalarOp. rewrite Hspec.
  destruct (resolve_implementation op node kwargs spec.1.1) as [l [res|e]] eqn:Hres.
  - right.
    assert (Hr : outcome (resolve_implementation op node kwargs spec.1.1) = Ok res)
      by (by rewrite Hres).
    apply resolve_ok_inv in Hr
      as [(o & cf & h & _ & _ & _ & _ & ->) | (Hi & Ho & _ & _)].
    + rewrite bind_ok.
      rewrite (synthesize_casting node _ (numpy_arg_dtypes h) (numpy_output_dtype h))
        by reflexivity.
      cbn [fst snd log_of outcome]. eexists _, _, _, _.
      split; [reflexivity|]. split; [reflexivity|]. split; [|reflexivity].
      repeat (apply Forall_cons; split; [reflexivity|]).
      apply Forall_app. split; [apply unique_name_events_synthesis|].
      repeat (apply Forall_cons; split; [reflexivity|]). constructor.
    + rewrite bind_ok, synthesize_forward by done.
      cbn [fst snd log_of outcome]. eexists _, _, _, _.
      split; [reflexivity|]. split; [reflexivity|]. split; [|reflexivity].
      repeat (apply Forall_cons; split; [reflexivity|]).
      apply Forall_app. split; [apply unique_name_events_synthesis|].
      repeat (apply Forall_cons; split; [reflexivity|]). constructor.
  - left. exists e. rewrite bind_raise. done.
Qed.

(** X11. Which libraries a lowering consults is decided by the shape of the
    descriptor alone: numpy is looked up exactly when the path is a bare
    name, the special-function library only for a path that starts with
    [scipy.special] (and then once, if the node has one output); never both,
    and for any other namespaced path neither. *)
Theorem lookups_follow_descriptor `{E : Externals} (op : ScalarOp) (node : Apply)
    (kwargs : gmap string KwVal) (spec : string * nat * nat) :
  nfunc_spec op = Some spec ->
  let log := log_of (numba_funcify_ScalarOp op node kwargs) in
  count_events is_numpy_lookup log
  = (match (unpack_last (split_dot spec.1.1)).1 with [] => 1 | _ => 0 end)
  /\ count_events is_cython_lookup log
     = (if startswith spec.1.1 "scipy.special"
        then (if decide (length (outputs node) = 1) then 1 else 0) else 0)
  /\ count_events is_numpy_lookup log + count_events is_cython_lookup log <= 1.
Proof.
  intros Hspec log.
  assert (Hlog : exists l2, log = log_of (resolve_implementation op node kwargs spec.1.1) ++ l2
                            /\ Forall (fun ev => is_synthesis ev = true) l2).
  { subst log. destruct (scalar_op_run op node kwargs spec Hspec)
      as [(e' & _ & ->) | (res & l2 & opts & f & _ & -> & Hl2 & _)].
    - exists []. split; [by rewrite app_nil_r | constructor].
    - exists l2. done. }
  destruct Hlog as (l2 & -> & Hl2).
  rewrite !count_events_app.
  rewrite (count_events_synthesis is_numpy_lookup l2) by (done || by intros []).
  rewrite (count_events_synthesis is_cython_lookup l2) by (done || by intros []).
  assert (Hpre0 : (unpack_last (split_dot spec.1.1)).1 = [] ->
                  startswith spec.1.1 "scipy.special" = false).
  { intros Hmod. destruct (startswith spec.1.1 "scipy.special") eqn:Hp; [|done].
    by apply scipy_special_has_module_path in Hp. }
  destruct (resolve_cases op node kwargs spec.1.1)
    as [(f & Hmod & _ & (o & Hout) & Hc) | [(Hmod & Hget & Hc) | [(Hlen & Hb & Hc)
       | [(o & cf & h & Hout & Hpre & _ & _ & Hc) | [(o & cf & e'' & Hout & Hpre & _ & _ & Hc)
       | (o & Hout & Hmod & Hget & Hc)]]]]].
  - rewrite Hc, Hmod, (Hpre0 Hmod). cbn. lia.
  - rewrite Hc, Hmod, (Hpre0 Hmod). cbn. lia.
  - rewrite decide_False by done.
    destruct (unpack_last (split_dot spec.1.1)).1 as [|md ms] eqn:Hmod.
    + rewrite (Hpre0 eq_refl).
      destruct Hc as [Hc | Hc]; rewrite Hc; cbn; [|lia].
      exfalso. pose proof (resolve_not_single_output op node kwargs spec.1.1 Hlen) as Hn.
      rewrite Hc, Hmod in Hn. discriminate.
    + destruct Hc as [Hc | Hc]; rewrite Hc; cbn.
      * destruct (startswith spec.1.1 "scipy.special"); lia.
      * exfalso.
        pose proof (resolve_not_single_output op node kwargs spec.1.1 Hlen) as Hn.
        rewrite Hc, Hmod in Hn. discriminate.
  - pose proof (scipy_special_has_module_path _ Hpre) as Hmod.
    rewrite decide_True by (by rewrite Hout).
    rewrite Hc, Hpre.
    destruct (unpack_last (split_dot spec.1.1)).1; [done | cbn; lia].
  - pose proof (scipy_special_has_module_path _ Hpre) as Hmod.
    rewrite decide_True by (by rewrite Hout).
    rewrite Hc, Hpre.
    destruct (unpack_last (split_dot spec.1.1)).1; [done | cbn; lia].
  - rewrite decide_True by (by rewrite Hout).
    rewrite Hc.
    destruct (unpack_last (split_dot spec.1.1)).1; [done|].
    destruct (startswith spec.1.1 "scipy.special"); cbn; lia.
Qed.

Lemma lookups_follow_descriptor_witness :
  count_events is_numpy_lookup (log_of (numba_funcify_ScalarOp op_exp node_f32 ∅)) = 1
  /\ count_events is_cython_lookup (log_of (numba_funcify_ScalarOp op_exp node_f32 ∅)) = 0.
Proof.
  destruct (lookups_follow_descriptor op_exp node_f32 ∅ ("exp", 1, 1) eq_refl)
    as (Hn & Hc & _).
  split; [exact Hn | exact Hc].
Defined.

(** X12. Every lowering of a ScalarOp calls [generate_fallback_impl] at most
    once, and whatever it logs after resolving the implementation is
    synthesis work: resolution is never resumed once a name has been
    generated. *)
Theorem fallback_at_most_once `{E : Externals} (op : ScalarOp) (node : Apply)
    (kwargs : gmap string KwVal) :
  let log := log_of (numba_funcify_ScalarOp op node kwargs) in
  count_events is_fallback_call log <= 1
  /\ exists l1 l2,
       log = l1 ++ l2
       /\ Forall (fun ev => is_synthesis ev = false) l1
       /\ Forall (fun ev => is_synthesis ev = true) l2.
Proof.
  intros log. subst log. destruct (nfunc_spec op) as [spec|] eqn:Hspec.
  2: { unfold numba_funcify_ScalarOp. rewrite Hspec. cbn. split; [lia|].
       exists [EvGenerateFallbackImpl], []. repeat constructor. }
  assert (Hres : count_events is_fallback_call
                   (log_of (resolve_implementation op node kwargs spec.1.1)) <= 1
                 /\ Forall (fun ev => is_synthesis ev = false)
                      (log_of (resolve_implementation op node kwargs spec.1.1))).
  { destruct (resolve_cases op node kwargs spec.1.1)
      as [(f & _ & _ & _ & Hc) | [(_ & _ & Hc) | [(_ & _ & Hc)
         | [(o & cf & h & _ & _ & _ & _ & Hc) | [(o & cf & e'' & _ & _ & _ & _ & Hc)
         | (o & _ & _ & _ & Hc)]]]]].
    - rewrite Hc. cbn. split; [lia | repeat constructor].
    - rewrite Hc. cbn. split; [lia | repeat constructor].
    - destruct Hc as [Hc | Hc]; rewrite Hc; cbn; split;
        try lia; repeat constructor.
    - rewrite Hc. cbn. split; [lia | repeat constructor].
    - rewrite Hc. cbn. split; [lia | repeat constructor].
    - rewrite Hc. destruct (startswith spec.1.1 "scipy.special"); cbn;
        (split; [lia | repeat constructor]). }
  destruct Hres as [Hcount Hnon].
  destruct (scalar_op_run op node kwargs spec Hspec)
    as [(e' & _ & ->) | (res & l2 & opts & f & _ & -> & Hl2 & _)]; cbn [log_of fst].
  - split; [exact Hcount|]. eexists _, []. rewrite app_nil_r.
    split; [reflexivity|]. split; [exact Hnon | constructor].
  - rewrite count_events_app.
    rewrite (count_events_synthesis is_fallback_call l2) by (done || by intros []).
    split; [lia|]. eexists _, l2. done.
Qed.

Lemma wrap_failure_propagates_witness :
  outcome (numba_funcify_ScalarOp op_expm1 node_c128 ∅)
  = Raise (NotImplementedError "no compatible signature")
  /\ count_events is_fallback_call (log_of (numba_funcify_ScalarOp op_expm1 node_c128 ∅))
     = 0.
Proof.
  apply (wrap_failure_propagates (E := demo) op_expm1 node_c128 ∅
           ("scipy.special.expm1", 1, 1)
           (scalar_var 1 "out" complex128) "expm1"); reflexivity.
Defined.

(** X14. An operator whose descriptor is a bare name that numpy lacks cannot
    be lowered, whatever the node: the lookup raises [AttributeError] before
    the outputs are counted and before the fallback could be tried. *)
Theorem missing_numpy_name_is_fatal `{E : Externals} (op : ScalarOp) (node : Apply)
    (kwargs : gmap string KwVal) (spec : string * nat * nat) :
  nfunc_spec op = Some spec ->
  bare_name_missing spec.1.1 = true ->
  numba_funcify_ScalarOp op node kwargs
  = ([EvNumpyGetattr (unpack_last (split_dot spec.1.1)).2],
     Raise (AttributeError "numpy" (unpack_last (split_dot spec.1.1)).2)).
Proof.
  intros Hspec Hb. unfold numba_funcify_ScalarOp. rewrite Hspec.
  rewrite resolve_numpy_missing; [reflexivity| |];
    unfold bare_name_missing in Hb;
    destruct (unpack_last (split_dot spec.1.1)) as [[|md ms] name]; simpl in *;
    try discriminate; try reflexivity.
  by destruct (np_getattr name).
Qed.

Lemma missing_numpy_name_is_fatal_witness :
  numba_funcify_ScalarOp op_missing_numpy node_two_outputs ∅
  = ([EvNumpyGetattr "no_such_ufunc"], Raise (AttributeError "numpy" "no_such_ufunc")).
Proof.
  apply (missing_numpy_name_is_fatal (E := demo) op_missing_numpy node_two_outputs ∅
           ("no_such_ufunc", 1, 1)); reflexivity.
Defined.

(** ** The wrapper without casts *)

Section ForwardFacts.
Context {C : Type} `{R : Runtime C}.

Lemma eval_names (globals : gmap string (GlobalVal C)) (locals : list (string * value))
    (names : list string) (args : list value) :
  Forall2 (fun n v => lookup_name globals locals n = Some (OVal v)) names args ->
  eval_args globals locals (List.map Name names) = Some (OVal <$> args, []).
Proof.
  induction 1 as [|n v names args Hn _ IH]; [reflexivity|].
  cbn [List.map eval_args eval]. rewrite Hn. simpl. rewrite IH. reflexivity.
Qed.

Lemma call_forward_def (globals : gmap string (GlobalVal C)) (fn : string)
    (names : list string) (impl : C) (args : list value) (r : value) :
  globals !! "scalar_func_numba" = Some (GImpl impl) ->
  NoDup names ->
  "scalar_func_numba" ∉ names ->
  length args = length names ->
  call_impl impl args = Some r ->
  call_def globals (forward_def fn names false) args
  = Some (r, [("scalar_func_numba", OVal <$> args)]).
Proof.
  intros Hg Hnd Hfresh Hlen Hcall.
  unfold call_def. cbn [def_args def_return forward_def dispatch_args].
  rewrite decide_True by done. rewrite app_nil_r, eval_call.
  rewrite (eval_names _ _ names args) by (by apply parameters_bound).
  simpl. rewrite find_non_parameter by done. rewrite Hg. simpl.
  rewrite as_values_OVal. simpl. rewrite Hcall. reflexivity.
Qed.
End ForwardFacts.

(** X13. For a descriptor that is a bare numpy name and a node with one
    output, the function handed to the JIT is
    [def f(n1, ..., nk): return scalar_func_numba(n1, ..., nk)] over the
    generated parameter names, with [scalar_func_numba] bound to the object
    [getattr(np, name)] gave.  Read as Python, a call of it is one call of
    that object on the arguments in their order, and what the object returns
    there is returned as it is: no cast, no dispatch-control argument, no
    other call. *)
Theorem numpy_wrapper_forwards_unchanged `{E : Externals} `{R : Runtime Callable}
    (op : ScalarOp) (node : Apply) (kwargs : gmap string KwVal)
    (spec : string * nat * nat) (o : ScalarVariable) (f : Callable) :
  nfunc_spec op = Some spec ->
  outputs node = [o] ->
  (unpack_last (split_dot spec.1.1)).1 = [] ->
  np_getattr (unpack_last (split_dot spec.1.1)).2 = Some f ->
  let names :=
    fresh_names (unique_name_generator [get_name_for_object f; "scalar_func_numba"] "_")
      (inputs node) in
  let d := {| def_name := get_name_for_object f; def_args := names;
              def_return := Call "scalar_func_numba" (Name <$> names) |} in
  exists opts fn,
    outcome (numba_funcify_ScalarOp op node kwargs) = Ok (Jitted opts (Source fn))
    /\ fn_name fn = get_name_for_object f
    /\ length names = length (inputs node)
    /\ fn_globals fn !! "scalar_func_numba" = Some (GImpl f)
    /\ fn_src fn = unparse_def tail12 d
    /\ count_calls "scalar_func_numba" (def_return d) = 1
    /\ count_calls "direct_cast" (def_return d) = 0
    /\ forall (args : list value) (r : value),
         NoDup names ->
         "scalar_func_numba" ∉ names ->
         length args = length names ->
         call_impl f args = Some r ->
         call_def (fn_globals fn) d args
         = Some (r, [("scalar_func_numba", OVal <$> args)]).
Proof.
  intros Hspec Hout Hmod Hget names d.
  unfold numba_funcify_ScalarOp. rewrite Hspec.
  rewrite (resolve_numpy op node kwargs _ o f Hout Hmod Hget), bind_ok.
  rewrite synthesize_forward by reflexivity.
  unfold outcome. cbn [fst snd scalar_func_numba pyx_skip_dispatch truth].
  assert (Hd : d = forward_def (get_name_for_object f) names false).
  { subst d. unfold forward_def. cbn [dispatch_args]. by rewrite app_nil_r. }
  assert (Hno : forall g, list_sum (List.map (count_calls g) (Name <$> names)) = 0).
  { intros g. clear. induction names as [|n ns IH]; [reflexivity|]. exact IH. }
  eexists _, _. split; [reflexivity|]. cbn [fn_globals fn_name fn_src].
  split; [reflexivity|]. split; [apply fresh_names_length|].
  split; [apply lookup_insert_eq|].
  change (fresh_names _ (inputs node)) with names.
  split; [rewrite Hd; apply forward_src_unparse; by right|].
  split; [subst d; cbn [def_return count_calls]; by rewrite Hno|].
  split; [subst d; cbn [def_return count_calls]; by rewrite Hno|].
  intros args r Hnd Hfresh Hlen Hcall. rewrite Hd.
  exact (call_forward_def (<["scalar_func_numba" := GImpl f]> module_globals)
           (get_name_for_object f) names f args r
           (lookup_insert_eq _ _ _) Hnd Hfresh Hlen Hcall).
Qed.

Lemma numpy_wrapper_forwards_unchanged_witness :
  exists opts fn,
    outcome (numba_funcify_ScalarOp op_exp node_f32 ∅) = Ok (Jitted opts (Source fn))
    /\ fn_globals fn !! "scalar_func_numba" = Some (GImpl "exp")
    /\ fn_src fn
       = unparse_def tail12
           {| def_name := "exp"; def_args := ["x"];
              def_return := Call "scalar_func_numba" [Name "x"] |}
    /\ call_def (fn_globals fn)
         {| def_name := "exp"; def_args := ["x"];
            def_return := Call "scalar_func_numba" [Name "x"] |}
         [PFloat 0%float]
       = Some (PFloat (series_exp 0), [("scalar_func_numba", [OVal (PFloat 0%float)])]).
Proof.
  destruct (numpy_wrapper_forwards_unchanged (E := demo) (R := demo_runtime)
              op_exp node_f32 ∅ ("exp", 1, 1) (scalar_var 1 "out" float32) "exp"
              eq_refl eq_refl eq_refl eq_refl)
    as (opts & fn & Hk & _ & _ & Hg & Hsrc & _ & _ & Hrun).
  exists opts, fn. split; [exact Hk|]. split; [exact Hg|]. split; [exact Hsrc|].
  apply (Hrun [PFloat 0%float] (PFloat (series_exp 0))); try reflexivity.
  - apply NoDup_singleton.
  - intros Hin. apply elem_of_cons in Hin as [Hin | Hin]; [discriminate Hin|].
    by apply elem_of_nil in Hin.
Defined.

(** ** Add, Mul and Composite at their edges *)

Lemma nary_run `{E : Externals} (node : Apply) (name op : string) (kernel : M Kernel) :
  kernel = (signature ← call_create_numba_signature (OfNode node) true;
            nary_add_fn ← binary_to_nary_func (inputs node) name op;
            numba_njit (Some signature) (Some config_numba__fastmath) None
              (Source nary_add_fn)) ->
  let names := fresh_names (unique_name_generator ["binary_op_name"] "_") (inputs node) in
  let src := NL +:+ "def " +:+ name +:+ "(" +:+ py_join ", " names +:+ "):" +:+ NL
                +:+ "    return " +:+ py_join op names +:+ NL +:+ tail4 in
  kernel
  = ([EvCreateNumbaSignature true; EvUniqueNameGenerator ["binary_op_name"]]
       ++ zip_with EvUniqueName (inputs node) names
       ++ [EvCompileFunctionSrc src name; EvNumbaNjit None],
     Ok (Jitted {| njit_signature := Some (create_numba_signature (OfNode node) true);
                   njit_fastmath := Some config_numba__fastmath;
                   njit_cache := None |}
           (Source {| fn_src := src; fn_name := name; fn_globals := module_globals |}))).
Proof.
  intros -> names src. unfold call_create_numba_signature.
  rewrite binary_to_nary_func_run. unfold mbind, M_bind. simpl.
  rewrite <- app_assoc. reflexivity.
Qed.

(** X15. The Add and Mul strategies have no guard on the node and never
    call the generic fallback, however many outputs the node has.  Every
    kernel they return is jitted from a text compiled
    in the module's globals alone, with the node's signature and without a
    [cache] keyword; the text is decided by the node's inputs, and for a node
    without inputs it is a function without parameters whose [return] has no
    expression. *)
Theorem nary_strategies_shape `{E : Externals} (node : Apply) (name op : string)
    (k : Kernel) :
  (name = "add" /\ op = "+" /\ outcome (numba_funcify_Add node) = Ok k)
  \/ (name = "mul" /\ op = "*" /\ outcome (numba_funcify_Mul node) = Ok k) ->
  let names := fresh_names (unique_name_generator ["binary_op_name"] "_") (inputs node) in
  exists f,
    k = Jitted {| njit_signature := Some (create_numba_signature (OfNode node) true);
                  njit_fastmath := Some config_numba__fastmath;
                  njit_cache := None |}
          (Source f)
    /\ fn_name f = name
    /\ fn_globals f = module_globals
    /\ fn_src f = NL +:+ "def " +:+ name +:+ "(" +:+ py_join ", " names +:+ "):" +:+ NL
                     +:+ "    return " +:+ py_join op names +:+ NL +:+ tail4
    /\ (inputs node = [] ->
        fn_src f = NL +:+ "def " +:+ name +:+ "():" +:+ NL +:+ "    return " +:+ NL +:+ tail4)
    /\ count_events is_fallback_call (log_of (numba_funcify_Add node)) = 0
    /\ count_events is_fallback_call (log_of (numba_funcify_Mul node)) = 0.
Proof.
  intros Hk names.
  pose proof (nary_run node "add" "+" (numba_funcify_Add node) eq_refl) as Hadd.
  pose proof (nary_run node "mul" "*" (numba_funcify_Mul node) eq_refl) as Hmul.
  cbv zeta in Hadd, Hmul.
  assert (Hlog : count_events is_fallback_call (log_of (numba_funcify_Add node)) = 0
                 /\ count_events is_fallback_call (log_of (numba_funcify_Mul node)) = 0).
  { rewrite Hadd, Hmul. unfold log_of. cbn [fst].
    rewrite !count_events_app. unfold count_events at 2 5.
    rewrite !filter_unique_name_events by done. split; reflexivity. }
  destruct Hk as [(-> & -> & Hk) | (-> & -> & Hk)];
    [rewrite Hadd in Hk | rewrite Hmul in Hk];
    unfold outcome in Hk; cbn [snd] in Hk; injection Hk as <-;
    (eexists; split; [reflexivity|]); cbn [fn_name fn_globals fn_src];
    (split; [reflexivity|]); (split; [reflexivity|]); (split; [reflexivity|]);
    (split; [|exact Hlog]); intros Hnil; subst names; rewrite Hnil; reflexivity.
Qed.

Lemma nary_strategies_shape_witness :
  exists k f,
    outcome (numba_funcify_Mul node3) = Ok k
    /\ k = Jitted {| njit_signature := Some ([int64; int64; int64], [int64], true);
                     njit_fastmath := Some true;
                     njit_cache := None |}
             (Source f)
    /\ fn_name f = "mul"
    /\ fn_src f = NL +:+ "def mul(x, y, z):" +:+ NL +:+ "    return x*y*z" +:+ NL +:+ tail4.
Proof.
  assert (Hk : exists k, outcome (numba_funcify_Mul node3) = Ok k)
    by (eexists; reflexivity).
  destruct Hk as [k Hk].
  destruct (nary_strategies_shape (E := demo) node3 "mul" "*" k
              (or_intror (conj eq_refl (conj eq_refl Hk))))
    as (f & Hj & Hn & _ & Hsrc & _).
  exists k, f. split; [exact Hk|]. split; [exact Hj|]. split; [exact Hn|].
  rewrite Hsrc. reflexivity.
Defined.

(** X16. A keyword context that already carries [squeeze_output] makes
    [numba_funcify_Composite] fail with [TypeError] at the call of the
    sub-graph lowering: the signature has been computed, the sub-graph is
    not lowered and nothing is jitted. *)
Theorem composite_duplicate_keyword_fails `{E : Externals} (op : Composite)
    (node : Apply) (kwargs : gmap string KwVal) (v : KwVal) :
  kwargs !! "squeeze_output" = Some v ->
  numba_funcify_Composite op node kwargs
  = ([EvCreateNumbaSignature true],
     Raise (TypeError "got multiple values for keyword argument 'squeeze_output'")).
Proof.
  intros Hsq. unfold numba_funcify_Composite, call_numba_funcify.
  rewrite lookup_delete_ne, Hsq by done. reflexivity.
Qed.

Lemma composite_duplicate_keyword_fails_witness :
  numba_funcify_Composite composite_add_mul node3 {[ "squeeze_output" := KwBool false ]}
  = ([EvCreateNumbaSignature true],
     Raise (TypeError "got multiple values for keyword argument 'squeeze_output'")).
Proof.
  apply (composite_duplicate_keyword_fails (E := demo) composite_add_mul node3
           {[ "squeeze_output" := KwBool false ]} (KwBool false)).
  reflexivity.
Defined.

(** X17. The casting wrapper always declares one parameter per input, but
    it forwards only as many as the bridge declared working precisions for:
    the [zip] of line 127 stops at the shorter list.  Surplus parameters are
    accepted and not passed on; surplus working precisions are bound in the
    wrapper's environment and not used. *)
Theorem casting_wrapper_forwards_zip `{E : Externals} (op : ScalarOp) (node : Apply)
    (kwargs : gmap string KwVal) (spec : string * nat * nat) (o : ScalarVariable)
    (cf : CythonFunc) (h : Handle Callable) :
  nfunc_spec op = Some spec ->
  outputs node = [o] ->
  startswith spec.1.1 "scipy.special" = true ->
  cython_special_getattr (unpack_last (split_dot spec.1.1)).2 = Some cf ->
  wrap_cython_function cf (var_dtype o) (var_dtype <$> inputs node) = Ok h ->
  let tmp := (fun i => "inp_tmp_dtype_" +:+ pretty i)
               <$> seq 0 (length (numpy_arg_dtypes h)) in
  let names :=
    fresh_names
      (unique_name_generator
         ([get_name_for_object (handle_callable h); "scalar_func_numba";
           "scalar_func_numba"; "direct_cast"; "output_dtype"] ++ tmp) "_")
      (inputs node) in
  let positional :=
    zip_with (fun n t => Call "direct_cast" [Name n; Name t]) names tmp in
  exists opts f,
    outcome (numba_funcify_ScalarOp op node kwargs) = Ok (Jitted opts (Source f))
    /\ fn_name f = get_name_for_object (handle_callable h)
    /\ length names = length (inputs node)
    /\ length positional = length (inputs node) `min` length (numpy_arg_dtypes h)
    /\ (forall i dt, numpy_arg_dtypes h !! i = Some dt ->
          fn_globals f !! ("inp_tmp_dtype_" +:+ pretty i) = Some (GDtype dt))
    /\ ((positional <> [] \/ truth (has_pyx_skip_dispatch h) = false) ->
        fn_src f
        = unparse_def tail12
            {| def_name := fn_name f; def_args := names;
               def_return :=
                 Call "direct_cast"
                   [Call "scalar_func_numba"
                      (positional
                         ++ (if truth (has_pyx_skip_dispatch h) then [NpIntc 1] else []));
                    Name "output_dtype"] |}).
Proof.
  intros Hspec Hout Hpre Hget Hwrap tmp names positional.
  unfold numba_funcify_ScalarOp. rewrite Hspec.
  rewrite (resolve_bridge op node kwargs _ o cf h Hout Hpre Hget Hwrap), bind_ok.
  rewrite (synthesize_casting node _ (numpy_arg_dtypes h) (numpy_output_dtype h))
    by reflexivity.
  unfold outcome. cbn [fst snd scalar_func_numba pyx_skip_dispatch].
  assert (Hnames : length names = length (inputs node)) by apply fresh_names_length.
  eexists _, _. split; [reflexivity|]. cbn [fn_name fn_src fn_globals].
  split; [reflexivity|]. split; [exact Hnames|].
  split; [subst positional tmp; by rewrite length_zip_with, length_fmap, length_seq, Hnames|].
  split; [apply casting_env_lookup|].
  intros Hne.
  rewrite (casting_reserved (get_name_for_object (handle_callable h))
             (handle_callable h) (numpy_arg_dtypes h) (numpy_output_dtype h)).
  change (List.map fst (input_tmp_dtype_names (numpy_arg_dtypes h)))
    with (input_tmp_dtype_names (numpy_arg_dtypes h)).*1.
  rewrite tmp_names_fst.
  rewrite casting_src_unparse; [reflexivity|].
  destruct Hne as [Hne | Hfl]; [left | by right].
  split; intros Hnil; apply Hne; subst positional.
  - change (fresh_names _ (inputs node)) with names in Hnil. by rewrite Hnil.
  - change (_ <$> seq 0 _) with tmp in Hnil. rewrite Hnil. apply zip_with_nil_r.
Qed.

Lemma casting_wrapper_forwards_zip_witness :
  length (inputs node_f32) = 1
  /\ length (numpy_arg_dtypes (demo_handle "expm1" true [float32])) = 2
  /\ exists opts f,
       outcome (numba_funcify_ScalarOp op_expm1 node_f32 ∅) = Ok (Jitted opts (Source f))
       /\ fn_globals f !! "inp_tmp_dtype_1" = Some (GDtype int32)
       /\ fn_src f
          = unparse_def tail12
              {| def_name := "expm1"; def_args := ["x"];
                 def_return :=
                   Call "direct_cast"
                     [Call "scalar_func_numba"
                        [Call "direct_cast" [Name "x"; Name "inp_tmp_dtype_0"];
                         NpIntc 1];
                      Name "output_dtype"] |}.
Proof.
  split; [reflexivity|]. split; [reflexivity|].
  destruct (casting_wrapper_forwards_zip (E := demo) op_expm1 node_f32 ∅
              ("scipy.special.expm1", 1, 1) (scalar_var 1 "out" float32) "expm1"
              (demo_handle "expm1" true [float32])
              eq_refl eq_refl eq_refl eq_refl eq_refl)
    as (opts & f & Hk & Hn & _ & _ & Htmp & Hsrc).
  exists opts, f. split; [exact Hk|].
  split; [exact (Htmp 1 int32 eq_refl)|].
  rewrite Hsrc; [|left; discriminate].
  rewrite Hn. reflexivity.
Defined.
